(** * Daily assistant: the narrative pipeline of [daily_assistant.py]

    A shallow embedding of the text pipeline of [src/daily_assistant.py]:
    [clean_text_for_tts], [fix_24h_times_for_tts], [get_random_transition],
    [get_time_greeting], and [get_ai_day_analysis] with its two local
    functions [format_time_for_speech] and [create_meeting_summary].

    Text.  A Python [str] is modelled as a [string] whose characters are the
    code points U+0000..U+00FF; the character classes below are those of
    CPython's [re] module and [str] methods on that range.

    Effects.  [random.choice] reads an explicit stream of draws, the clock
    and the name store are read once and passed in, and exceptions are the
    [Raises] outcome, which the [try]/[except] of [get_ai_day_analysis]
    turns into a returned sentence. *)

From Stdlib Require Import Strings.String Strings.Ascii Lists.List Arith.Arith
  Arith.PeanoNat Bool.Bool micromega.Lia Numbers.DecimalString.
Import ListNotations.

Open Scope list_scope.
Open Scope string_scope.

(** ** Characters *)

Module Chars.

Definition code (c : ascii) : nat := nat_of_ascii c.

Definition in_range (lo hi : nat) (c : ascii) : bool :=
  ((lo <=? code c) && (code c <=? hi))%nat.

(** [\d]: the decimal digits. *)
Definition is_decimal (c : ascii) : bool := in_range 48 57 c.

(** [\s] and [str.strip]: tab, line feed, vertical tab, form feed, carriage
    return, the four separators U+001C..U+001F, space, NEL and NBSP. *)
Definition is_space (c : ascii) : bool :=
  in_range 9 13 c || in_range 28 32 c
  || (code c =? 133)%nat || (code c =? 160)%nat.

(** [str.isalnum]: letters and digits (and the other numeric characters). *)
Definition is_alnum (c : ascii) : bool :=
  in_range 48 57 c || in_range 65 90 c || in_range 97 122 c
  || (code c =? 170)%nat || in_range 178 179 c || (code c =? 181)%nat
  || in_range 185 186 c || in_range 188 190 c
  || in_range 192 214 c || in_range 216 246 c || in_range 248 255 c.

(** [\w]: alphanumeric or the underscore. *)
Definition is_word (c : ascii) : bool := is_alnum c || (c =? "_")%char.

(** [str.lower] on one character. *)
Definition lower_char (c : ascii) : ascii :=
  if in_range 65 90 c || in_range 192 214 c || in_range 216 222 c
  then ascii_of_nat (code c + 32) else c.

Definition digit_val (c : ascii) : nat := code c - 48.

End Chars.
Import Chars.

Definition chars (s : string) : list ascii := list_ascii_of_string s.
Definition text (l : list ascii) : string := string_of_list_ascii l.

(** [s.lower()] *)
Definition lower (s : string) : string := text (map lower_char (chars s)).

(** [int(s)] on a run of decimal digits. *)
Definition int_of_digits (l : list ascii) : nat :=
  fold_left (fun acc c => 10 * acc + digit_val c) l 0.

(** [str(n)] *)
Definition str (n : nat) : string := NilEmpty.string_of_uint (Nat.to_uint n).

(** [f"{n:02d}"] *)
Definition fmt_02d (n : nat) : string :=
  if (n <? 10)%nat then "0" ++ str n else str n.

(** [a in b] on strings. *)
Fixpoint contains (needle hay : string) : bool :=
  if prefix needle hay then true
  else match hay with
       | EmptyString => false
       | String _ rest => contains needle rest
       end.

(** ** [clean_text_for_tts] (lines 111-122) *)

(** The class [[-_/\\|]]. *)
Definition is_separator (c : ascii) : bool :=
  (c =? "-")%char || (c =? "_")%char || (c =? "/")%char
  || (c =? "\")%char || (c =? "|")%char.

(** [re.sub(r'[-_/\\|]', ' ', text)] *)
Definition replace_separators (l : list ascii) : list ascii :=
  map (fun c => if is_separator c then " "%char else c) l.

(** [re.sub(r'[^\w\s]', '', text)] *)
Definition remove_specials (l : list ascii) : list ascii :=
  filter (fun c => is_word c || is_space c) l.

(** [re.sub(r'\s+', ' ', text)]: [in_run] tells that the previous character
    belongs to the whitespace run being replaced. *)
Fixpoint collapse_spaces (in_run : bool) (l : list ascii) : list ascii :=
  match l with
  | [] => []
  | c :: r =>
      if is_space c
      then (if in_run then collapse_spaces true r
            else " "%char :: collapse_spaces true r)
      else c :: collapse_spaces false r
  end.

Fixpoint lstrip (l : list ascii) : list ascii :=
  match l with
  | [] => []
  | c :: r => if is_space c then lstrip r else l
  end.

Definition rstrip (l : list ascii) : list ascii := rev (lstrip (rev l)).

(** [text.strip()] *)
Definition strip (l : list ascii) : list ascii := rstrip (lstrip l).

Definition clean_chars (l : list ascii) : list ascii :=
  strip (collapse_spaces false (remove_specials (replace_separators l))).

(** The argument is [None] or a [str]; a falsy argument is handed back. *)
Definition clean_text_for_tts (t : option string) : option string :=
  match t with
  | None => None
  | Some EmptyString => Some EmptyString
  | Some s => Some (text (clean_chars (chars s)))
  end.

(** ** [fix_24h_times_for_tts] (lines 124-150) *)

(** The inner function [convert_24h_time], on the matched text. *)
Definition convert_24h_time (time_str : list ascii) : string :=
  let hour := int_of_digits (firstn 2 time_str) in
  let minute := int_of_digits (skipn 2 time_str) in
  if (hour =? 0)%nat then
    (if (minute =? 0)%nat then "midnight" else "12 " ++ fmt_02d minute ++ " AM")
  else if (hour =? 12)%nat then
    (if (minute =? 0)%nat then "noon" else "12 " ++ fmt_02d minute ++ " PM")
  else if (12 <? hour)%nat then
    (if (minute =? 0)%nat then str (hour - 12)
     else str (hour - 12) ++ " " ++ fmt_02d minute)
  else
    (if (minute =? 0)%nat then str hour else str hour ++ " " ++ fmt_02d minute).

(** [[0-2]\d[0-5]\d] *)
Definition military_pattern (c1 c2 c3 c4 : ascii) : bool :=
  in_range 48 50 c1 && is_decimal c2 && in_range 48 53 c3 && is_decimal c4.

(** Whether the text that follows starts with a word character. *)
Definition next_is_word (l : list ascii) : bool :=
  match l with
  | [] => false
  | c :: _ => is_word c
  end.

(** [\b] between a character that is a word character or not ([before]) and
    the text that follows. *)
Definition word_boundary (before : bool) (after : list ascii) : bool :=
  xorb before (next_is_word after).

(** [re.sub(r'\b([0-2]\d[0-5]\d)\b', convert_24h_time, text)]: a scan from
    left to right; [prev_word] tells whether the character before the
    position is a word character. After a match the scan resumes behind it. *)
Fixpoint sub_military (prev_word : bool) (l : list ascii) : list ascii :=
  match l with
  | [] => []
  | c1 :: r =>
      match r with
      | c2 :: c3 :: c4 :: rest =>
          if word_boundary prev_word l && military_pattern c1 c2 c3 c4
             && word_boundary (is_word c4) rest
          then (chars (convert_24h_time [c1; c2; c3; c4])
                  ++ sub_military (is_word c4) rest)%list
          else c1 :: sub_military (is_word c1) r
      | _ => c1 :: sub_military (is_word c1) r
      end
  end.

Definition fix_24h_times_for_tts (t : option string) : option string :=
  match t with
  | None => None
  | Some EmptyString => Some EmptyString
  | Some s => Some (text (sub_military false (chars s)))
  end.

(** ** [get_random_transition] (lines 152-155) *)

(** The random source: the stream of numbers it will deliver. *)
Definition rng := nat -> nat.

(** [random.choice(seq)]: the element at a drawn index below [len(seq)]. *)
Definition choice (seq : list string) (g : rng) : string * rng :=
  (nth (g 0 mod length seq) seq "", fun i => g (S i)).

Definition transitions : list string := ["followed by"; "then"; "next"].

Definition get_random_transition (g : rng) : string * rng :=
  choice transitions g.

(** ** [get_time_greeting] (lines 157-168), on [datetime.now().hour] *)

Definition get_time_greeting (current_hour : nat) : string :=
  if ((5 <=? current_hour) && (current_hour <? 12))%nat then "Good morning"
  else if ((12 <=? current_hour) && (current_hour <? 17))%nat
       then "Good afternoon"
  else if ((17 <=? current_hour) && (current_hour <? 21))%nat
       then "Good evening"
  else "Good night".

(** ** Exceptions *)

Inductive exn : Type :=
| KeyError (key : string)
| EOFError (msg : string).

(** [str(e)], as [f"{e}"] renders it. *)
Definition exn_str (e : exn) : string :=
  match e with
  | KeyError key => "'" ++ key ++ "'"
  | EOFError msg => msg
  end.

Inductive outcome (A : Type) : Type :=
| Returns (a : A)
| Raises (e : exn).
Arguments Returns {A} a.
Arguments Raises {A} e.

Definition bind {A B : Type} (m : outcome A) (f : A -> outcome B) : outcome B :=
  match m with
  | Returns a => f a
  | Raises e => Raises e
  end.

Notation "x <- m ;; k" := (bind m (fun x => k))
  (at level 61, m at next level, right associativity).

(** [try: body / except Exception as e: return handler(e)] *)
Definition try_except {A : Type} (body : outcome A) (handler : exn -> A)
  : outcome A :=
  match body with
  | Returns a => Returns a
  | Raises e => Returns (handler e)
  end.

(** ** Events *)

(** An event is a dict from field names to strings. *)
Definition event := list (string * string).

(** [event[key]] *)
Fixpoint getitem (ev : event) (key : string) : outcome string :=
  match ev with
  | [] => Raises (KeyError key)
  | (k, v) :: rest => if (k =? key)%string then Returns v else getitem rest key
  end.

(** Truth value of a string. *)
Definition truthy (s : string) : bool :=
  match s with
  | EmptyString => false
  | String _ _ => true
  end.

(** An [Optional[str]] inside an f-string. *)
Definition fmt (t : option string) : string :=
  match t with
  | None => "None"
  | Some s => s
  end.

(** ** [format_time_for_speech] (lines 511-542) *)

Inductive period : Type := AM | PM.

(** [(AM|PM)] at the head of the text. *)
Definition match_period (l : list ascii) : option period :=
  match l with
  | a :: m :: _ =>
      if ((a =? "A") && (m =? "M"))%char then Some AM
      else if ((a =? "P") && (m =? "M"))%char then Some PM
      else None
  | _ => None
  end.

(** [(\d{2})\s*(AM|PM)] at the head of the text, behind the hour [h]. *)
Definition match_minute_period (h : list ascii) (l : list ascii)
  : option (list ascii * list ascii * period) :=
  match l with
  | m1 :: m2 :: r =>
      if is_decimal m1 && is_decimal m2
      then match match_period (lstrip r) with
           | Some p => Some (h, [m1; m2], p)
           | None => None
           end
      else None
  | _ => None
  end.

(** [re.match(r'(\d{1,2}):(\d{2})\s*(AM|PM)', time_str)]: the three groups.
    The greedy [\d{1,2}] takes two digits when a colon follows them, one digit
    when the colon follows it. *)
Definition match_time (l : list ascii)
  : option (list ascii * list ascii * period) :=
  match l with
  | h1 :: r1 =>
      if is_decimal h1 then
        match r1 with
        | h2 :: r2 =>
            if is_decimal h2 then
              match r2 with
              | c :: r3 =>
                  if (c =? ":")%char then match_minute_period [h1; h2] r3
                  else None
              | [] => None
              end
            else if (h2 =? ":")%char then match_minute_period [h1] r2
            else None
        | [] => None
        end
      else None
  | [] => None
  end.

Definition is_PM (p : period) : bool :=
  match p with PM => true | AM => false end.

Definition is_AM (p : period) : bool :=
  match p with AM => true | PM => false end.

Definition format_time_for_speech (time_str : string) : string :=
  match match_time (chars time_str) with
  | Some (g1, g2, p) =>
      let hour := int_of_digits g1 in
      let minute := int_of_digits g2 in
      let hour :=
        if is_PM p && negb (hour =? 12)%nat then hour + 12
        else if is_AM p && (hour =? 12)%nat then 0
        else hour in
      if (minute =? 0)%nat then
        if (hour =? 0)%nat then "midnight"
        else if (hour =? 12)%nat then "noon"
        else if (12 <? hour)%nat then str (hour - 12)
        else str hour
      else
        if (12 <? hour)%nat then str (hour - 12) ++ " " ++ fmt_02d minute
        else str hour ++ " " ++ fmt_02d minute
  | None => time_str
  end.

(** ** [create_meeting_summary] (lines 544-566) *)

(** One turn of the loop: the phrase appended to [meeting_parts]. *)
Definition meeting_part (user_name : string) (ev : event) : outcome string :=
  o <- getitem ev "organizer" ;;
  let organizer := if truthy o then o else "Unknown organizer" in
  subject <- getitem ev "subject" ;;
  let clean_subject := clean_text_for_tts (Some subject) in
  let clean_subject := fix_24h_times_for_tts clean_subject in
  let clean_organizer := clean_text_for_tts (Some organizer) in
  st <- getitem ev "start_time" ;;
  let start_time := format_time_for_speech st in
  et <- getitem ev "end_time" ;;
  let end_time := format_time_for_speech et in
  let time_range := start_time ++ " to " ++ end_time in
  if truthy organizer && truthy user_name
     && contains (lower user_name) (lower organizer)
  then Returns (fmt clean_subject ++ " from " ++ time_range)
  else Returns (fmt clean_subject ++ " from " ++ time_range
                  ++ " with " ++ fmt clean_organizer).

Fixpoint create_meeting_summary (user_name : string) (events : list event)
  : outcome (list string) :=
  match events with
  | [] => Returns []
  | ev :: rest =>
      part <- meeting_part user_name ev ;;
      parts <- create_meeting_summary user_name rest ;;
      Returns (part :: parts)
  end.

(** ** [get_ai_day_analysis] (lines 496-614) *)

(** The loop [for i in range(1, len(parts) - 1)] of lines 583-585 and
    604-606, over the phrases [parts[1:len(parts)-1]]. *)
Fixpoint middle_loop (middle : list string) (result : string) (g : rng)
  : string * rng :=
  match middle with
  | [] => (result, g)
  | p :: rest =>
      let (transition, g') := get_random_transition g in
      middle_loop rest (result ++ ", " ++ transition ++ " " ++ p) g'
  end.

(** [parts[lo:hi]] *)
Definition slice (lo hi : nat) (parts : list string) : list string :=
  firstn (hi - lo) (skipn lo parts).

(** Lines 573-588 and 597-607: the sentence for one day behind [result],
    with the opening [one] for a single phrase and [many] otherwise. The
    list is not empty where this is reached. *)
Definition day_sentence (one many : string) (parts : list string)
  (result : string) (g : rng) : string * rng :=
  if (length parts =? 1)%nat then
    (result ++ one ++ nth 0 parts "" ++ ".", g)
  else if (length parts =? 2)%nat then
    let (transition, g') := get_random_transition g in
    (result ++ many ++ nth 0 parts "" ++ ", " ++ transition ++ " "
       ++ nth 1 parts "" ++ ".", g')
  else
    let result := result ++ many ++ nth 0 parts "" in
    let (result, g') :=
      middle_loop (slice 1 (length parts - 1) parts) result g in
    (result ++ ", and finally " ++ last parts "" ++ ".", g').

(** What the function reads from outside: the hour of the clock, what
    [get_user_name()] gives (a name, or the exception of a closed input), and
    the random source. *)
Record world : Type := {
  current_hour : nat;
  user_name_store : outcome string;
  draws : rng
}.

Definition nonempty {A : Type} (l : list A) : bool :=
  match l with [] => false | _ :: _ => true end.

(** Truth value of [tomorrow_events_data], [None] or a list. *)
Definition truthy_opt {A : Type} (o : option (list A)) : bool :=
  match o with
  | Some l => nonempty l
  | None => false
  end.

Definition free_day_tail : string :=
  "! You have a free day with no scheduled meetings - perfect time to catch up on personal projects or take a well-deserved break!".

(** The body of the [try] block. *)
Definition day_analysis_body (w : world) (events_data : list event)
  (tomorrow_events_data : option (list event)) : outcome string :=
  if negb (nonempty events_data) && negb (truthy_opt tomorrow_events_data)
  then
    let greeting := get_time_greeting (current_hour w) in
    user_name <- user_name_store w ;;
    Returns (greeting ++ " " ++ user_name ++ free_day_tail)
  else
    user_name <- user_name_store w ;;
    let greeting := get_time_greeting (current_hour w) in
    let hello := greeting ++ " " ++ user_name ++ "! " in
    today <-
      (if nonempty events_data then
         meeting_parts <- create_meeting_summary user_name events_data ;;
         Returns (day_sentence "You start your day with "
                    "You start your day with " meeting_parts hello (draws w))
       else Returns (hello ++ "You have a free day today.", draws w)) ;;
    let (result, g) := today in
    if truthy_opt tomorrow_events_data then
      tomorrow_parts <-
        create_meeting_summary user_name
          (match tomorrow_events_data with Some l => l | None => [] end) ;;
      if nonempty tomorrow_parts then
        Returns (fst (day_sentence " Tomorrow you have "
                        " Tomorrow you start with " tomorrow_parts result g))
      else Returns (result ++ " Tomorrow is free with no scheduled meetings.")
    else Returns result.

Definition apology (e : exn) : string :=
  "Sorry, I couldn't create your day summary due to an error: " ++ exn_str e.

Definition get_ai_day_analysis (w : world) (events_summary : string)
  (events_data : list event) (tomorrow_events_data : option (list event))
  : outcome string :=
  try_except (day_analysis_body w events_data tomorrow_events_data) apology.

(** The dict [get_today_calendar_events] builds for an appointment, with the
    four fields the summary reads. *)
Definition mk_event (subject start_time end_time organizer : string) : event :=
  [("subject", subject); ("start_time", start_time);
   ("end_time", end_time); ("organizer", organizer)].

(** ** Words of the specification *)

(** [p] occurs in [t] at the head of [t]'s suffix from each counted place. *)
Fixpoint occurrences (p t : string) : nat :=
  (if prefix p t then 1 else 0)
  + match t with
    | EmptyString => 0
    | String _ rest => occurrences p rest
    end.

(** [a] is a substring of [b]. *)
Definition substring_of (a b : string) : Prop :=
  exists pre post, b = pre ++ a ++ post.

(** The spoken form of an embedded time as the specification words it:
    0000 is midnight, 1200 is noon, an hour above 12 loses 12, a zero minute
    is not spoken, any other minute is spoken with two digits. *)
Definition spec_embedded_time (hour minute : nat) : string :=
  if ((hour =? 0) && (minute =? 0))%nat then "midnight"
  else if ((hour =? 12) && (minute =? 0))%nat then "noon"
  else if (12 <? hour)%nat then
    (if (minute =? 0)%nat then str (hour - 12)
     else str (hour - 12) ++ " " ++ fmt_02d minute)
  else
    (if (minute =? 0)%nat then str hour else str hour ++ " " ++ fmt_02d minute).

(** The 24-hour value of an hour of the 12-hour clock. *)
Definition hour_24 (hour : nat) (p : period) : nat :=
  match p with
  | AM => if (hour =? 12)%nat then 0 else hour
  | PM => if (hour =? 12)%nat then 12 else hour + 12
  end.

(** The spoken form of a clock time as the specification words it: midnight
    for 00:00, noon for 12:00, the hour wrapped to the 12-hour clock, followed
    by the two-digit minute when that is not zero. *)
Definition spec_clock_time (hour24 minute : nat) : string :=
  let wrapped := if (12 <? hour24)%nat then hour24 - 12 else hour24 in
  if ((hour24 =? 0) && (minute =? 0))%nat then "midnight"
  else if ((hour24 =? 12) && (minute =? 0))%nat then "noon"
  else if (minute =? 0)%nat then str wrapped
  else str wrapped ++ " " ++ fmt_02d minute.

Definition period_str (p : period) : string :=
  match p with AM => "AM" | PM => "PM" end.

(** [strftime('%I:%M %p')] of a time of day. *)
Definition clock_text (hour minute : nat) (p : period) : string :=
  fmt_02d hour ++ ":" ++ fmt_02d minute ++ " " ++ period_str p.

(** * Properties *)

(** ** Strings and character lists *)

Section Conversions.
Local Open Scope list_scope.

Lemma chars_text (l : list ascii) : chars (text l) = l.
Proof. apply list_ascii_of_string_of_list_ascii. Qed.

Lemma text_chars (s : string) : text (chars s) = s.
Proof. apply string_of_list_ascii_of_string. Qed.

Lemma chars_append (a b : string) :
  chars (a ++ b)%string = chars a ++ chars b.
Proof.
  induction a as [|c a IH]; simpl; [reflexivity|].
  unfold chars in *; simpl; now rewrite IH.
Qed.

Lemma text_app (a b : list ascii) : text (a ++ b) = (text a ++ text b)%string.
Proof.
  induction a as [|c a IH]; simpl; [reflexivity|].
  unfold text in *; simpl; now rewrite IH.
Qed.

Lemma append_assoc (a b c : string) :
  ((a ++ b) ++ c)%string = (a ++ b ++ c)%string.
Proof. induction a as [|x a IH]; simpl; [reflexivity | now rewrite IH]. Qed.

Lemma append_empty_r (a : string) : (a ++ "")%string = a.
Proof. induction a as [|x a IH]; simpl; [reflexivity | now rewrite IH]. Qed.

Lemma chars_inj (a b : string) : chars a = chars b -> a = b.
Proof.
  intros H. rewrite <- (text_chars a), <- (text_chars b). now rewrite H.
Qed.

End Conversions.

(** ** Character classes *)

Ltac each_char c :=
  destruct c as [[] [] [] [] [] [] [] []]; vm_compute;
  try reflexivity; try discriminate; auto.

Lemma alnum_not_space (c : ascii) : is_alnum c = true -> is_space c = false.
Proof. each_char c. Qed.

Lemma alnum_not_separator (c : ascii) :
  is_alnum c = true -> is_separator c = false.
Proof. each_char c. Qed.

Lemma word_not_separator_alnum (c : ascii) :
  is_word c = true -> is_separator c = false -> is_alnum c = true.
Proof. each_char c. Qed.

Lemma space_not_separator (c : ascii) :
  is_space c = true -> is_separator c = false.
Proof. each_char c. Qed.

Lemma alnum_is_word (c : ascii) : is_alnum c = true -> is_word c = true.
Proof. unfold is_word. intros ->. reflexivity. Qed.

Lemma decimal_is_word (c : ascii) : is_decimal c = true -> is_word c = true.
Proof. each_char c. Qed.

(** ** [clean_text_for_tts]: the shape of its results *)

Section Normalize.
Local Open Scope list_scope.
Local Open Scope char_scope.

(** A letter, a digit or the space character. *)
Definition plain (c : ascii) : Prop := is_alnum c = true \/ c = " ".

(** No space is followed by a space. *)
Fixpoint single_spaced (l : list ascii) : Prop :=
  match l with
  | [] => True
  | c :: r => (c = " " -> hd_error r <> Some " ") /\ single_spaced r
  end.

(** The first character, when there is one, is not whitespace. *)
Definition starts_tight (l : list ascii) : Prop :=
  forall c, hd_error l = Some c -> is_space c = false.

Lemma plain_space_iff (c : ascii) : plain c -> is_space c = true -> c = " ".
Proof.
  intros [H|H] Hs; [|assumption].
  apply alnum_not_space in H. congruence.
Qed.

Lemma replace_separators_free (l : list ascii) :
  Forall (fun c => is_separator c = false) (replace_separators l).
Proof.
  induction l as [|c l IH]; simpl; constructor; auto.
  destruct (is_separator c) eqn:E; [reflexivity | exact E].
Qed.

Lemma remove_specials_plainish (l : list ascii) :
  Forall (fun c => is_separator c = false) l ->
  Forall (fun c => is_alnum c = true \/ is_space c = true) (remove_specials l).
Proof.
  induction 1 as [|c l Hc _ IH]; simpl; [constructor|].
  destruct (is_word c) eqn:Ew; simpl.
  - constructor; [left; now apply word_not_separator_alnum | exact IH].
  - destruct (is_space c) eqn:Es; [constructor; auto | exact IH].
Qed.

Lemma collapse_spaces_plain (b : bool) (l : list ascii) :
  Forall (fun c => is_alnum c = true \/ is_space c = true) l ->
  Forall plain (collapse_spaces b l).
Proof.
  intros H. revert b. induction H as [|c l Hc _ IH]; intros b; simpl.
  - constructor.
  - destruct (is_space c) eqn:Es.
    + destruct b; [apply IH | constructor; [now right | apply IH]].
    + constructor; [|apply IH]. destruct Hc; [now left | congruence].
Qed.

Lemma collapse_spaces_single (b : bool) (l : list ascii) :
  single_spaced (collapse_spaces b l)
  /\ (b = true -> hd_error (collapse_spaces b l) <> Some " ").
Proof.
  revert b. induction l as [|c l IH]; intros b; simpl.
  - split; [exact I | discriminate].
  - destruct (is_space c) eqn:Es.
    + destruct b.
      * apply IH.
      * split; [|discriminate]. simpl. split; [|apply IH].
        intros _. now apply (IH true).
    + split.
      * simpl. split; [|apply IH]. intros ->. discriminate.
      * intros _ [= ->]. discriminate.
Qed.

Lemma lstrip_suffix (l : list ascii) : exists a, l = a ++ lstrip l.
Proof.
  induction l as [|c l [a IH]]; simpl.
  - now exists [].
  - destruct (is_space c).
    + exists (c :: a). simpl. now f_equal.
    + now exists [].
Qed.

Lemma lstrip_tight (l : list ascii) : starts_tight (lstrip l).
Proof.
  induction l as [|c l IH]; simpl.
  - intros c. discriminate.
  - destruct (is_space c) eqn:Es; [exact IH|].
    intros c' [= <-]. exact Es.
Qed.

Lemma lstrip_id (l : list ascii) : starts_tight l -> lstrip l = l.
Proof.
  destruct l as [|c l]; simpl; [reflexivity|].
  intros H. now rewrite (H c eq_refl).
Qed.

Lemma rstrip_prefix (l : list ascii) : exists b, l = rstrip l ++ b.
Proof.
  unfold rstrip. destruct (lstrip_suffix (rev l)) as [a Ha].
  exists (rev a). rewrite <- rev_app_distr, <- Ha. now rewrite rev_involutive.
Qed.

Lemma rstrip_tight_end (l : list ascii) : starts_tight (rev (rstrip l)).
Proof. unfold rstrip. rewrite rev_involutive. apply lstrip_tight. Qed.

Lemma rstrip_id (l : list ascii) : starts_tight (rev l) -> rstrip l = l.
Proof.
  intros H. unfold rstrip. rewrite (lstrip_id _ H). apply rev_involutive.
Qed.

Lemma starts_tight_prefix (a b : list ascii) :
  starts_tight (a ++ b) -> starts_tight a.
Proof.
  destruct a as [|c a]; intros H c'; simpl; [discriminate|].
  intros [= <-]. now apply H.
Qed.

Lemma strip_infix (l : list ascii) : exists a b, l = a ++ strip l ++ b.
Proof.
  unfold strip. destruct (lstrip_suffix l) as [a Ha].
  destruct (rstrip_prefix (lstrip l)) as [b Hb].
  exists a, b. now rewrite <- Hb.
Qed.

Lemma strip_tight (l : list ascii) :
  starts_tight (strip l) /\ starts_tight (rev (strip l)).
Proof.
  split; [|apply rstrip_tight_end].
  unfold strip. destruct (rstrip_prefix (lstrip l)) as [b Hb].
  apply starts_tight_prefix with b. rewrite <- Hb. apply lstrip_tight.
Qed.

Lemma single_spaced_app (a b : list ascii) :
  single_spaced (a ++ b) -> single_spaced a /\ single_spaced b.
Proof.
  induction a as [|c a IH]; simpl.
  - now split.
  - intros [H1 H2]. destruct (IH H2) as [Ha Hb]. repeat split; auto.
    intros Hc. specialize (H1 Hc). destruct a; [discriminate | exact H1].
Qed.

Lemma single_spaced_no_run (l : list ascii) :
  single_spaced l -> forall pre post, l <> pre ++ " " :: " " :: post.
Proof.
  intros H pre post ->. apply single_spaced_app in H as [_ H].
  simpl in H. destruct H as [H _]. now apply H.
Qed.

(** The results of [clean_chars]: plain characters, single spaces, no
    whitespace at either end. *)
Definition normal (l : list ascii) : Prop :=
  Forall plain l /\ single_spaced l
  /\ starts_tight l /\ starts_tight (rev l).

Lemma clean_chars_normal (l : list ascii) : normal (clean_chars l).
Proof.
  unfold clean_chars.
  set (k := collapse_spaces false (remove_specials (replace_separators l))).
  assert (Hp : Forall plain k).
  { apply collapse_spaces_plain, remove_specials_plainish,
      replace_separators_free. }
  assert (Hs : single_spaced k) by apply collapse_spaces_single.
  destruct (strip_infix k) as (a & b & Hk).
  rewrite Hk in Hp, Hs.
  apply Forall_app in Hp as [_ Hp]. apply Forall_app in Hp as [Hp _].
  apply single_spaced_app in Hs as [_ Hs].
  apply single_spaced_app in Hs as [Hs _].
  repeat split; auto; apply strip_tight.
Qed.

Lemma replace_separators_id (l : list ascii) :
  Forall plain l -> replace_separators l = l.
Proof.
  induction 1 as [|c l Hc _ IH]; simpl; [reflexivity|]. rewrite IH.
  destruct Hc as [Hc| ->]; [|reflexivity].
  now rewrite (alnum_not_separator _ Hc).
Qed.

Lemma remove_specials_id (l : list ascii) :
  Forall plain l -> remove_specials l = l.
Proof.
  induction 1 as [|c l Hc _ IH]; [reflexivity|].
  unfold remove_specials in *. cbn [filter].
  destruct Hc as [Hc| ->].
  - rewrite (alnum_is_word _ Hc). cbn. now f_equal.
  - replace (is_word " " || is_space " ") with true by reflexivity.
    now f_equal.
Qed.

Lemma collapse_spaces_id (b : bool) (l : list ascii) :
  Forall plain l -> single_spaced l ->
  (b = true -> hd_error l <> Some " ") ->
  collapse_spaces b l = l.
Proof.
  intros H. revert b. induction H as [|c l Hc _ IH]; intros b Hs Hb; simpl.
  - reflexivity.
  - destruct Hs as [Hs1 Hs2].
    destruct (is_space c) eqn:Es.
    + pose proof (plain_space_iff _ Hc Es) as ->.
      destruct b; [now exfalso; apply Hb|].
      f_equal. apply IH; auto.
    + f_equal. apply IH; auto. discriminate.
Qed.

Lemma clean_chars_fixed (l : list ascii) : normal l -> clean_chars l = l.
Proof.
  intros (Hp & Hs & Hh & Hl). unfold clean_chars, strip.
  rewrite (replace_separators_id _ Hp), (remove_specials_id _ Hp).
  rewrite (collapse_spaces_id false _ Hp Hs) by discriminate.
  rewrite (lstrip_id _ Hh). now apply rstrip_id.
Qed.

End Normalize.

(** C8. For every string [x], [clean_text_for_tts] returns a string [y] made
    of letters, digits and spaces only, in which no two spaces are adjacent
    and which neither starts nor ends with whitespace; cleaning [y] again
    gives [y]; and an empty or null argument is returned as it is. *)
Theorem clean_text_for_tts_normal_idempotent (x : string) :
  (exists y,
     clean_text_for_tts (Some x) = Some y
     /\ (forall c, In c (chars y) -> is_alnum c = true \/ c = " "%char)
     /\ (forall pre post, y <> pre ++ "  " ++ post)
     /\ (forall c rest, y = String c rest -> is_space c = false)
     /\ (forall front c, y = front ++ String c "" -> is_space c = false))
  /\ clean_text_for_tts (clean_text_for_tts (Some x))
     = clean_text_for_tts (Some x)
  /\ clean_text_for_tts None = None
  /\ clean_text_for_tts (Some "") = Some "".
Proof.
  assert (Hn : forall l, normal (chars (text (clean_chars l)))).
  { intros l. rewrite chars_text. apply clean_chars_normal. }
  assert (Hshape : forall y, normal (chars y) ->
     (forall c, In c (chars y) -> is_alnum c = true \/ c = " "%char)
     /\ (forall pre post, y <> pre ++ "  " ++ post)
     /\ (forall c rest, y = String c rest -> is_space c = false)
     /\ (forall front c, y = front ++ String c "" -> is_space c = false)).
  { intros y (Hp & Hs & Hh & Hl). repeat split.
    - intros c Hc. rewrite Forall_forall in Hp. exact (Hp c Hc).
    - intros pre post ->.
      apply (single_spaced_no_run _ Hs (chars pre) (chars post)).
      now rewrite chars_append.
    - intros c rest ->. now apply Hh.
    - intros front c ->. apply Hl.
      rewrite chars_append, rev_app_distr. reflexivity. }
  assert (Hempty : normal (chars "")).
  { repeat split; try constructor; intros c; discriminate. }
  repeat split; try reflexivity.
  - destruct x as [|a x].
    + exists "". split; [reflexivity | now apply Hshape].
    + eexists. split; [reflexivity | apply Hshape, Hn].
  - destruct x as [|a x]; [reflexivity|].
    cbn [clean_text_for_tts].
    destruct (text (clean_chars (chars (String a x)))) as [|b y] eqn:E;
      [reflexivity|].
    cbn [clean_text_for_tts]. rewrite <- E.
    rewrite chars_text, clean_chars_fixed; [reflexivity|].
    apply clean_chars_normal.
Qed.

(** ** [format_time_for_speech] *)

Section ClockTimes.
Local Open Scope char_scope.

Definition no_colon (s : string) : Prop := ~ In ":" (chars s).

Lemma no_colon_append (a b : string) :
  no_colon a -> no_colon b -> no_colon (a ++ b).
Proof.
  unfold no_colon. rewrite chars_append. intros Ha Hb H.
  apply in_app_or in H. tauto.
Qed.

Lemma no_colon_uint (d : Decimal.uint) :
  no_colon (NilEmpty.string_of_uint d).
Proof.
  unfold no_colon, chars.
  induction d; simpl; intros H; try tauto;
    destruct H as [H|H]; try discriminate; tauto.
Qed.

Lemma no_colon_str (n : nat) : no_colon (str n).
Proof. apply no_colon_uint. Qed.

Lemma no_colon_fmt_02d (n : nat) : no_colon (fmt_02d n).
Proof.
  unfold fmt_02d. destruct (n <? 10)%nat; [|apply no_colon_str].
  apply no_colon_append; [|apply no_colon_str].
  intros [H|[]]. discriminate.
Qed.

Lemma absent_char (c : ascii) (s : string) :
  existsb (fun d => d =? c) (chars s) = false -> ~ In c (chars s).
Proof.
  intros H Hin. assert (E : existsb (fun d => d =? c) (chars s) = true).
  { apply existsb_exists. exists c. split; [exact Hin | apply Ascii.eqb_refl]. }
  congruence.
Qed.

Lemma no_colon_literal (s : string) :
  existsb (fun c => c =? ":") (chars s) = false -> no_colon s.
Proof. apply absent_char. Qed.

Lemma match_time_colon (l : list ascii) r :
  match_time l = Some r -> In ":" l.
Proof.
  destruct l as [|h1 [|h2 r2]]; simpl; try discriminate.
  - now destruct (is_decimal h1).
  - destruct (is_decimal h1); [|discriminate].
    destruct (is_decimal h2).
    + destruct r2 as [|c r3]; [discriminate|].
      destruct (c =? ":") eqn:E; [|discriminate].
      apply Ascii.eqb_eq in E. subst. intros _. simpl. tauto.
    + destruct (h2 =? ":") eqn:E; [|discriminate].
      apply Ascii.eqb_eq in E. subst. intros _. simpl. tauto.
Qed.

Lemma format_time_for_speech_no_match (s : string) :
  no_colon s -> format_time_for_speech s = s.
Proof.
  intros H. unfold format_time_for_speech.
  destruct (match_time (chars s)) as [r|] eqn:E; [|reflexivity].
  apply match_time_colon in E. contradiction.
Qed.

Lemma format_time_for_speech_matched (s : string) r :
  match_time (chars s) = Some r -> no_colon (format_time_for_speech s).
Proof.
  unfold format_time_for_speech. intros ->. destruct r as [[g1 g2] p].
  cbv zeta.
  repeat match goal with
  | |- no_colon (if ?b then _ else _) => destruct b
  | |- no_colon (_ ++ _) => apply no_colon_append
  | |- no_colon (str _) => apply no_colon_str
  | |- no_colon (fmt_02d _) => apply no_colon_fmt_02d
  | |- no_colon _ => apply no_colon_literal; reflexivity
  end.
Qed.

End ClockTimes.

(** C10. [format_time_for_speech] is total on strings and idempotent: a
    string that matches the clock pattern becomes a phrase without a colon,
    which the pattern cannot match, and any other string is returned as it
    is. *)
Theorem format_time_for_speech_idempotent (s : string) :
  format_time_for_speech (format_time_for_speech s) = format_time_for_speech s
  /\ (match_time (chars s) = None -> format_time_for_speech s = s)
  /\ (match_time (chars s) <> None -> no_colon (format_time_for_speech s)).
Proof.
  assert (Hnone : match_time (chars s) = None -> format_time_for_speech s = s).
  { intros E. unfold format_time_for_speech. now rewrite E. }
  repeat split.
  - destruct (match_time (chars s)) as [r|] eqn:E.
    + apply format_time_for_speech_no_match.
      now apply format_time_for_speech_matched with r.
    + now rewrite !Hnone.
  - exact Hnone.
  - destruct (match_time (chars s)) as [r|] eqn:E; [|congruence].
    intros _. now apply format_time_for_speech_matched with r.
Qed.

Lemma format_time_for_speech_idempotent_witness :
  format_time_for_speech (format_time_for_speech "02:45 PM")
  = format_time_for_speech "02:45 PM"
  /\ format_time_for_speech "02:45 PM" = "2 45"
  /\ format_time_for_speech "around two" = "around two".
Proof.
  destruct (format_time_for_speech_idempotent "02:45 PM") as (H & _ & _).
  destruct (format_time_for_speech_idempotent "around two") as (_ & H' & _).
  split; [exact H | split; [reflexivity | apply H'; reflexivity]].
Defined.

(** *** Clock times as [strftime('%I:%M %p')] writes them *)

Definition clock_table_agrees : bool :=
  forallb (fun hour =>
    forallb (fun minute =>
      forallb (fun p =>
        (format_time_for_speech (clock_text hour minute p)
         =? spec_clock_time (hour_24 hour p) minute)%string)
        [AM; PM])
      (seq 0 60))
    (seq 1 12).

Lemma clock_table_checked : clock_table_agrees = true.
Proof. vm_compute. reflexivity. Qed.

(** C5, as the code has it. For every time of the 12-hour clock written
    [hh:mm AM] or [hh:mm PM], [format_time_for_speech] gives "midnight" for
    00:00, "noon" for 12:00, the hour wrapped to the 12-hour clock when the
    minute is zero, and otherwise that hour followed by the two-digit minute,
    with no AM or PM; so "09:00 AM" gives "9", "12:00 PM" gives "noon", and
    "12:30 AM" gives "0 30". *)
Theorem format_time_for_speech_clock (hour minute : nat) (p : period) :
  1 <= hour <= 12 -> minute <= 59 ->
  format_time_for_speech (clock_text hour minute p)
  = spec_clock_time (hour_24 hour p) minute
  /\ format_time_for_speech "09:00 AM" = "9"
  /\ format_time_for_speech "12:00 PM" = "noon"
  /\ format_time_for_speech "12:30 AM" = "0 30".
Proof.
  intros Hh Hm. split; [|repeat split; reflexivity].
  pose proof clock_table_checked as T. unfold clock_table_agrees in T.
  rewrite forallb_forall in T.
  assert (Ih : In hour (seq 1 12)) by (apply in_seq; lia).
  specialize (T hour Ih). rewrite forallb_forall in T.
  assert (Im : In minute (seq 0 60)) by (apply in_seq; lia).
  specialize (T minute Im). rewrite forallb_forall in T.
  apply String.eqb_eq, T. destruct p; simpl; tauto.
Qed.

Lemma format_time_for_speech_clock_witness :
  format_time_for_speech (clock_text 1 5 PM) = "1 05".
Proof.
  destruct (format_time_for_speech_clock 1 5 PM) as [H _];
    [lia | lia | exact H].
Defined.

(** C5, as it is worded, fails at half past midnight: the phrase is "0 30",
    not "midnight 30". *)
Lemma format_time_for_speech_half_past_midnight :
  format_time_for_speech "12:30 AM" = "0 30"
  /\ format_time_for_speech "12:30 AM" <> "midnight 30".
Proof. split; [reflexivity | discriminate]. Qed.

(** ** [fix_24h_times_for_tts] *)

(** The spoken form [convert_24h_time] gives to hour [hour] and minute
    [minute]: as the specification words it, but for the half hours behind
    midnight and noon, which are spoken on the 12-hour clock with AM or PM. *)
Definition spoken_embedded_time (hour minute : nat) : string :=
  if (minute =? 0)%nat then
    (if (hour =? 0)%nat then "midnight"
     else if (hour =? 12)%nat then "noon"
     else if (12 <? hour)%nat then str (hour - 12) else str hour)
  else
    (if (hour =? 0)%nat then "12 " ++ fmt_02d minute ++ " AM"
     else if (hour =? 12)%nat then "12 " ++ fmt_02d minute ++ " PM"
     else if (12 <? hour)%nat then str (hour - 12) ++ " " ++ fmt_02d minute
     else str hour ++ " " ++ fmt_02d minute).

(** Whether the text ends with a word character. *)
Definition last_is_word (l : list ascii) : bool := next_is_word (rev l).

(** The four digits [HHMM] of a time of day. *)
Definition military_text (hour minute : nat) : string :=
  fmt_02d hour ++ fmt_02d minute.

Section MilitaryTimes.
Local Open Scope list_scope.

Lemma nonword_breaks_pattern (c : ascii) :
  is_word c = false ->
  is_decimal c = false /\ in_range 48 50 c = false
  /\ in_range 48 53 c = false.
Proof. each_char c. Qed.

Lemma pattern_is_words (c1 c2 c3 c4 : ascii) :
  military_pattern c1 c2 c3 c4 = true ->
  is_word c1 = true /\ is_word c4 = true.
Proof.
  unfold military_pattern. rewrite !andb_true_iff.
  intros [[[H1 _] _] H4]. split; [|now apply decimal_is_word].
  revert H1. each_char c1.
Qed.

Lemma pattern_nonword (c1 c2 c3 c4 : ascii) :
  is_word c1 = false \/ is_word c2 = false \/ is_word c3 = false
  \/ is_word c4 = false ->
  military_pattern c1 c2 c3 c4 = false.
Proof.
  unfold military_pattern.
  intros [H|[H|[H|H]]]; apply nonword_breaks_pattern in H as (Hd & H2 & H5);
    rewrite ?Hd, ?H2, ?H5, ?andb_false_r; reflexivity.
Qed.

(** One step of the scan. *)
Lemma sub_military_cons (p : bool) (c1 : ascii) (r : list ascii) :
  sub_military p (c1 :: r)
  = match r with
    | c2 :: c3 :: c4 :: rest =>
        if word_boundary p (c1 :: r) && military_pattern c1 c2 c3 c4
           && word_boundary (is_word c4) rest
        then chars (convert_24h_time [c1; c2; c3; c4])
               ++ sub_military (is_word c4) rest
        else c1 :: sub_military (is_word c1) r
    | _ => c1 :: sub_military (is_word c1) r
    end.
Proof. destruct r as [|c2 [|c3 [|c4 rest]]]; reflexivity. Qed.

(** Where the pattern does not match, the character is copied. *)
Lemma sub_military_step (p : bool) (c1 : ascii) (r : list ascii) :
  (forall c2 c3 c4 rest,
     r = c2 :: c3 :: c4 :: rest -> military_pattern c1 c2 c3 c4 = false) ->
  sub_military p (c1 :: r) = c1 :: sub_military (is_word c1) r.
Proof.
  intros H. rewrite sub_military_cons.
  destruct r as [|c2 [|c3 [|c4 rest]]]; try reflexivity.
  now rewrite (H c2 c3 c4 rest eq_refl), andb_false_r.
Qed.

Lemma sub_military_nonword (p : bool) (c : ascii) (r : list ascii) :
  is_word c = false -> sub_military p (c :: r) = c :: sub_military false r.
Proof.
  intros H. rewrite sub_military_step, H; [reflexivity|].
  intros. apply pattern_nonword. tauto.
Qed.

Lemma next_is_word_app (a : list ascii) (c : ascii) (r1 r2 : list ascii) :
  next_is_word (a ++ c :: r1) = next_is_word (a ++ c :: r2).
Proof. destruct a; reflexivity. Qed.

Lemma short_prefix_no_match (c1 c : ascii) (pre tail : list ascii) :
  length pre < 3 -> is_word c = false ->
  forall c2 c3 c4 rest,
    pre ++ c :: tail = c2 :: c3 :: c4 :: rest ->
    military_pattern c1 c2 c3 c4 = false.
Proof.
  intros Hlen Hc c2 c3 c4 rest E. apply pattern_nonword.
  destruct pre as [|x [|y [|z pre]]]; simpl in *; try lia;
    inversion E; subst; tauto.
Qed.

(** The scan of a text is the scan of its part up to a character that is not
    a word character, followed by the scan of the rest. *)
Lemma sub_military_split (n : nat) :
  forall (pre : list ascii) (c : ascii) (rest : list ascii) (p : bool),
    length pre <= n -> is_word c = false ->
    sub_military p (pre ++ c :: rest)
    = sub_military p (pre ++ [c]) ++ sub_military false rest.
Proof.
  induction n as [|n IH]; intros pre c rest p Hlen Hc.
  - destruct pre; [|simpl in Hlen; lia]. simpl app.
    now rewrite !sub_military_nonword.
  - destruct pre as [|c1 pre]; [simpl app; now rewrite !sub_military_nonword|].
    simpl in Hlen.
    assert (Hshape : length pre < 3
                     \/ exists c2 c3 c4 pre', pre = c2 :: c3 :: c4 :: pre').
    { destruct pre as [|c2 [|c3 [|c4 pre']]]; simpl; try (left; lia).
      right. now exists c2, c3, c4, pre'. }
    destruct Hshape as [Hshort | (c2 & c3 & c4 & pre' & ->)].
    + rewrite <- !app_comm_cons.
      rewrite !sub_military_step by now apply short_prefix_no_match.
      rewrite <- app_comm_cons. f_equal. apply IH; [lia | assumption].
    + rewrite <- !app_comm_cons, !sub_military_cons.
      unfold word_boundary. cbn [next_is_word].
      rewrite (next_is_word_app pre' c rest []).
      destruct (xorb p (is_word c1) && military_pattern c1 c2 c3 c4
                && xorb (is_word c4) (next_is_word (pre' ++ [c]))).
      * rewrite <- app_assoc. f_equal.
        apply IH; [simpl in *; lia | assumption].
      * rewrite <- app_comm_cons. f_equal.
        apply (IH (c2 :: c3 :: c4 :: pre') c rest);
          [simpl in *; lia | assumption].
Qed.

Lemma last_is_word_snoc (l : list ascii) (c : ascii) :
  last_is_word (l ++ [c]) = is_word c.
Proof. unfold last_is_word. now rewrite rev_app_distr. Qed.

Lemma sub_military_app (pre rest : list ascii) :
  last_is_word pre = false ->
  sub_military false (pre ++ rest)
  = sub_military false pre ++ sub_military false rest.
Proof.
  destruct pre as [|c pre _] using rev_ind; [reflexivity|].
  rewrite last_is_word_snoc. intros Hc.
  rewrite <- app_assoc. simpl app.
  now apply (sub_military_split (length pre)).
Qed.

Lemma sub_military_after_word (post : list ascii) :
  next_is_word post = false ->
  sub_military true post = sub_military false post.
Proof.
  destruct post as [|c post]; [reflexivity|]. cbn [next_is_word]. intros Hc.
  now rewrite !sub_military_nonword.
Qed.

Lemma sub_military_time (c1 c2 c3 c4 : ascii) (post : list ascii) :
  military_pattern c1 c2 c3 c4 = true -> next_is_word post = false ->
  sub_military false (c1 :: c2 :: c3 :: c4 :: post)
  = chars (convert_24h_time [c1; c2; c3; c4]) ++ sub_military false post.
Proof.
  intros Hp Hn. rewrite sub_military_cons. unfold word_boundary.
  destruct (pattern_is_words _ _ _ _ Hp) as [H1 H4].
  cbn [next_is_word]. rewrite Hp, H1, H4, Hn. cbn [xorb andb].
  now rewrite sub_military_after_word.
Qed.

(** A text in which the pattern matches no whole word is left as it is;
    [before] is the text in front of the part still to scan. *)
Lemma sub_military_unchanged (l before : list ascii) :
  (forall pre a b c d post,
     before ++ l = pre ++ a :: b :: c :: d :: post ->
     last_is_word pre = false -> next_is_word post = false ->
     military_pattern a b c d = false) ->
  sub_military (last_is_word before) l = l.
Proof.
  revert before. induction l as [|c1 r IH]; intros before H; [reflexivity|].
  assert (Hstep : sub_military (last_is_word before) (c1 :: r)
                  = c1 :: sub_military (is_word c1) r).
  { rewrite sub_military_cons.
    destruct r as [|c2 [|c3 [|c4 rest]]]; try reflexivity.
    destruct (military_pattern c1 c2 c3 c4) eqn:Hp;
      [|now rewrite andb_false_r].
    destruct (pattern_is_words _ _ _ _ Hp) as [H1 H4].
    unfold word_boundary. cbn [next_is_word]. rewrite H1, H4.
    destruct (last_is_word before) eqn:Hb; [reflexivity|].
    destruct (next_is_word rest) eqn:Hn; [reflexivity|].
    rewrite (H before c1 c2 c3 c4 rest eq_refl Hb Hn) in Hp. discriminate. }
  rewrite Hstep. f_equal.
  rewrite <- (last_is_word_snoc before c1). apply IH.
  intros pre a b c d post E. apply H. rewrite <- E.
  now rewrite <- app_assoc.
Qed.

Lemma fix_24h_times_for_tts_some (s : string) :
  fix_24h_times_for_tts (Some s) = Some (text (sub_military false (chars s))).
Proof. destruct s; reflexivity. Qed.

Definition military_table_agrees : bool :=
  forallb (fun hour =>
    forallb (fun minute =>
      match chars (military_text hour minute) with
      | [c1; c2; c3; c4] =>
          military_pattern c1 c2 c3 c4
          && (convert_24h_time [c1; c2; c3; c4]
              =? spoken_embedded_time hour minute)%string
      | _ => false
      end)
      (seq 0 60))
    (seq 0 24).

Lemma military_table_checked : military_table_agrees = true.
Proof. vm_compute. reflexivity. Qed.

Lemma military_text_digits (hour minute : nat) :
  hour <= 23 -> minute <= 59 ->
  exists c1 c2 c3 c4,
    chars (military_text hour minute) = [c1; c2; c3; c4]
    /\ military_pattern c1 c2 c3 c4 = true
    /\ convert_24h_time [c1; c2; c3; c4] = spoken_embedded_time hour minute.
Proof.
  intros Hh Hm.
  pose proof military_table_checked as T. unfold military_table_agrees in T.
  rewrite forallb_forall in T.
  assert (Ih : In hour (seq 0 24)) by (apply in_seq; lia).
  specialize (T hour Ih). rewrite forallb_forall in T.
  assert (Im : In minute (seq 0 60)) by (apply in_seq; lia).
  specialize (T minute Im).
  destruct (chars (military_text hour minute))
    as [|c1 [|c2 [|c3 [|c4 [|c5 rest]]]]]; try discriminate.
  apply andb_true_iff in T as [Tp Te]. apply String.eqb_eq in Te.
  now exists c1, c2, c3, c4.
Qed.

End MilitaryTimes.

(** C4, as the code has it. A whole-word [HHMM] with [HH] in 00-23 and [MM]
    in 00-59 is replaced by its spoken form: "midnight" for 0000, "noon" for
    1200, "12 MM AM" and "12 MM PM" for the other minutes of the hours 00 and
    12, the hour less 12 above 12 and the bare hour below, followed by the
    two-digit minute when that is not zero; the text in front of the word and
    the text behind it are rewritten on their own; and a text in which no
    whole word has the form [[0-2]d[0-5]d] is returned unchanged. *)
Theorem fix_24h_times_for_tts_whole_words :
  (forall (pre post : string) (hour minute : nat),
     hour <= 23 -> minute <= 59 ->
     last_is_word (chars pre) = false -> next_is_word (chars post) = false ->
     fix_24h_times_for_tts (Some (pre ++ military_text hour minute ++ post))
     = Some (fmt (fix_24h_times_for_tts (Some pre))
             ++ spoken_embedded_time hour minute
             ++ fmt (fix_24h_times_for_tts (Some post))))
  /\ (forall s : string,
        (forall pre a b c d post,
           s = pre ++ String a (String b (String c (String d post))) ->
           last_is_word (chars pre) = false ->
           next_is_word (chars post) = false ->
           military_pattern a b c d = false) ->
        fix_24h_times_for_tts (Some s) = Some s)
  /\ fix_24h_times_for_tts (Some "0000") = Some "midnight"
  /\ fix_24h_times_for_tts (Some "1200") = Some "noon"
  /\ fix_24h_times_for_tts (Some "1800") = Some "6"
  /\ fix_24h_times_for_tts (Some "1815") = Some "6 15"
  /\ fix_24h_times_for_tts (Some "0130") = Some "1 30"
  /\ fix_24h_times_for_tts (Some "0030") = Some "12 30 AM"
  /\ fix_24h_times_for_tts (Some "1245") = Some "12 45 PM".
Proof.
  split; [|split; [|repeat split; reflexivity]].
  - intros pre post hour minute Hh Hm Hpre Hpost.
    rewrite !fix_24h_times_for_tts_some. cbn [fmt]. f_equal.
    destruct (military_text_digits hour minute Hh Hm)
      as (c1 & c2 & c3 & c4 & Ed & Hp & Ec).
    rewrite !chars_append, Ed.
    rewrite sub_military_app by assumption.
    cbn [app]. rewrite (sub_military_time _ _ _ _ _ Hp Hpost).
    now rewrite !text_app, Ec, text_chars.
  - intros s H. rewrite fix_24h_times_for_tts_some. f_equal.
    rewrite <- (text_chars s) at 2. f_equal.
    apply (sub_military_unchanged (chars s) []).
    intros pre a b c d post E Hpre Hpost.
    apply (H (text pre) a b c d (text post)); rewrite ?chars_text; auto.
    apply chars_inj. rewrite chars_append. cbn [app] in E.
    unfold chars at 3. cbn [list_ascii_of_string].
    fold (chars (text post)). now rewrite !chars_text.
Qed.

Lemma fix_24h_times_for_tts_whole_words_witness :
  fix_24h_times_for_tts (Some "Sync at 1815 sharp")
  = Some "Sync at 6 15 sharp"
  /\ fix_24h_times_for_tts (Some "Room 3051") = Some "Room 3051".
Proof.
  destruct fix_24h_times_for_tts_whole_words as (Htime & Hsame & _).
  split.
  - apply (Htime "Sync at " " sharp" 18 15); [lia | lia | reflexivity ..].
  - apply Hsame. intros pre a b c d post E _ _.
    repeat (destruct pre as [|? pre]; simpl in E;
            [ inversion E; subst; reflexivity
            | try discriminate E; injection E as _ E ]).
Defined.

(** C4, as it is worded, fails at half past midnight: 0030 becomes
    "12 30 AM", where the wording gives the hour and the minute, "0 30". *)
Lemma fix_24h_times_for_tts_half_past_midnight :
  fix_24h_times_for_tts (Some "0030") = Some "12 30 AM"
  /\ spec_embedded_time 0 30 = "0 30"
  /\ fix_24h_times_for_tts (Some "0030") <> Some (spec_embedded_time 0 30).
Proof. repeat split; try reflexivity. discriminate. Qed.

(** A four-digit word whose first two digits are 24 to 29 is rewritten too:
    the pattern asks for a first digit up to 2 and any second digit. *)
Lemma fix_24h_times_for_tts_hour_25 :
  fix_24h_times_for_tts (Some "Flight 2530") = Some "Flight 13 30".
Proof. reflexivity. Qed.

(** ** [create_meeting_summary]: the organizer *)

Section Substrings.

Lemma prefix_iff (a b : string) :
  prefix a b = true <-> exists post, b = a ++ post.
Proof.
  revert b. induction a as [|c a IH]; intros b.
  - split; [intros _; now exists b | destruct b; reflexivity].
  - destruct b as [|d b]; simpl.
    + split; [discriminate | intros [post E]; discriminate].
    + destruct (ascii_dec c d) as [->|N].
      * split.
        -- intros H. apply IH in H as [post ->]. now exists post.
        -- intros [post [= E]]. apply IH. now exists post.
      * split; [discriminate | intros [post E]; congruence].
Qed.

Lemma contains_iff (a b : string) :
  contains a b = true <-> substring_of a b.
Proof.
  unfold substring_of. split.
  - induction b as [|d b IH]; cbn [contains].
    + destruct (prefix a "") eqn:E; [|discriminate].
      apply prefix_iff in E as [post E]. intros _. now exists "", post.
    + destruct (prefix a (String d b)) eqn:E.
      * apply prefix_iff in E as [post E]. intros _. now exists "", post.
      * intros H. destruct (IH H) as (pre & post & ->).
        now exists (String d pre), post.
  - intros (pre & post & ->). induction pre as [|d pre IH]; cbn [append].
    + assert (E : prefix a (a ++ post) = true)
        by (apply prefix_iff; now exists post).
      destruct (a ++ post); cbn [contains]; now rewrite E.
    + cbn [contains]. rewrite IH. now destruct (prefix a _).
Qed.

Lemma append_same_head (a b : string) : a ++ b = a -> b = "".
Proof. induction a as [|c a IH]; simpl; [auto | intros [= E]; auto]. Qed.

Lemma truthy_iff (s : string) : truthy s = true <-> s <> "".
Proof. destruct s; simpl; split; congruence. Qed.

End Substrings.

(** The phrase without its organizer. *)
Definition phrase_base (subject start_time end_time : string) : string :=
  fmt (fix_24h_times_for_tts (clean_text_for_tts (Some subject)))
  ++ " from " ++ format_time_for_speech start_time
  ++ " to " ++ format_time_for_speech end_time.

(** The organizer as line 548 sets it. *)
Definition organizer_or_unknown (organizer : string) : string :=
  if truthy organizer then organizer else "Unknown organizer".

Lemma organizer_or_unknown_truthy (organizer : string) :
  truthy (organizer_or_unknown organizer) = true.
Proof. destruct organizer; reflexivity. Qed.

Lemma meeting_part_fields
  (user_name : string) (e : event)
  (subject start_time end_time organizer : string) :
  getitem e "organizer" = Returns organizer ->
  getitem e "subject" = Returns subject ->
  getitem e "start_time" = Returns start_time ->
  getitem e "end_time" = Returns end_time ->
  meeting_part user_name e
  = if truthy user_name
       && contains (lower user_name) (lower (organizer_or_unknown organizer))
    then Returns (phrase_base subject start_time end_time)
    else Returns (phrase_base subject start_time end_time ++ " with "
                    ++ fmt (clean_text_for_tts
                              (Some (organizer_or_unknown organizer)))).
Proof.
  intros Ho Hs Hst Het.
  unfold meeting_part. rewrite Ho, Hs, Hst, Het. cbn [bind].
  fold (organizer_or_unknown organizer).
  rewrite organizer_or_unknown_truthy. cbn [andb].
  unfold phrase_base. now rewrite !append_assoc.
Qed.

(** C6, as the code has it. For an event with an organizer, the phrase ends
    without " with <organizer>" exactly when the user name is not empty and
    is, letter case apart, a substring of the organizer; otherwise it ends
    with " with " and the cleaned organizer. For an event without an
    organizer, a suffix, where the phrase has one, reads
    " with Unknown organizer". *)
Theorem meeting_part_organizer_suffix
  (user_name : string) (e : event)
  (subject start_time end_time organizer : string) :
  getitem e "organizer" = Returns organizer ->
  getitem e "subject" = Returns subject ->
  getitem e "start_time" = Returns start_time ->
  getitem e "end_time" = Returns end_time ->
  let base := phrase_base subject start_time end_time in
  let named :=
    user_name <> "" /\ substring_of (lower user_name) (lower organizer) in
  (organizer <> "" ->
     (meeting_part user_name e = Returns base <-> named)
     /\ (~ named ->
         meeting_part user_name e
         = Returns (base ++ " with " ++ fmt (clean_text_for_tts (Some organizer)))))
  /\ (organizer = "" ->
      meeting_part user_name e = Returns base
      \/ meeting_part user_name e = Returns (base ++ " with Unknown organizer")).
Proof.
  intros Ho Hs Hst Het base named.
  rewrite (meeting_part_fields _ _ _ _ _ _ Ho Hs Hst Het). fold base.
  split.
  - intros Hne.
    assert (Eo : organizer_or_unknown organizer = organizer).
    { unfold organizer_or_unknown.
      now rewrite (proj2 (truthy_iff organizer) Hne). }
    rewrite Eo.
    destruct (truthy user_name && contains (lower user_name) (lower organizer))
      eqn:C.
    + apply andb_true_iff in C as [Cu Cc].
      apply (proj1 (truthy_iff _)) in Cu. apply contains_iff in Cc.
      split; [split; [intros _; now split | reflexivity] | intros N].
      exfalso. apply N. now split.
    + assert (N : ~ named).
      { intros [Nu Nc]. apply (proj2 (truthy_iff _)) in Nu.
        apply contains_iff in Nc.
        rewrite Nu, Nc in C. discriminate. }
      split; [split; [|intros H; now destruct (N H)] | reflexivity].
      intros [= E]. apply append_same_head in E. discriminate.
  - intros ->. cbn [organizer_or_unknown truthy].
    destruct (truthy user_name
              && contains (lower user_name) (lower "Unknown organizer"));
      [now left | now right].
Qed.

Lemma meeting_part_organizer_suffix_witness :
  meeting_part "sam" (mk_event "Standup" "09:00 AM" "09:15 AM" "Sam Smith")
  = Returns "Standup from 9 to 9 15"
  /\ meeting_part "Sam" (mk_event "Review" "02:00 PM" "03:00 PM" "Bob")
     = Returns "Review from 2 to 3 with Bob".
Proof.
  split.
  - apply (meeting_part_organizer_suffix "sam"
             (mk_event "Standup" "09:00 AM" "09:15 AM" "Sam Smith")
             "Standup" "09:00 AM" "09:15 AM" "Sam Smith");
      try reflexivity; [discriminate|].
    split; [discriminate | now exists "", " smith"].
  - apply (meeting_part_organizer_suffix "Sam"
             (mk_event "Review" "02:00 PM" "03:00 PM" "Bob")
             "Review" "02:00 PM" "03:00 PM" "Bob");
      try reflexivity; [discriminate|].
    intros [_ H]. apply contains_iff in H. discriminate.
Defined.

(** C6, as it is worded, fails for an empty user name: it is a substring of
    every organizer, and the phrase keeps its suffix. *)
Lemma meeting_part_empty_user_name :
  substring_of (lower "") (lower "Alice")
  /\ meeting_part "" (mk_event "Standup" "09:00 AM" "09:15 AM" "Alice")
     = Returns "Standup from 9 to 9 15 with Alice".
Proof. split; [now exists "", "alice" | reflexivity]. Qed.

(** ** The sentence for one day *)

(** The phrases [phrases], each behind a comma and its connective. *)
Fixpoint link (connectives phrases : list string) : string :=
  match connectives, phrases with
  | c :: cs, p :: ps => ", " ++ c ++ " " ++ p ++ link cs ps
  | _, _ => ""
  end.

Ltac reassociate :=
  repeat first [ rewrite append_assoc | rewrite append_empty_r
               | progress cbn [append] ].

Section Sentences.

Lemma get_random_transition_in (g : rng) :
  In (fst (get_random_transition g)) transitions.
Proof.
  unfold get_random_transition, choice. cbn [fst].
  apply nth_In. apply Nat.mod_upper_bound. discriminate.
Qed.

Lemma link_app (cs ps : list string) (c p : string) :
  length cs = length ps ->
  link (cs ++ [c]) (ps ++ [p]) = link cs ps ++ ", " ++ c ++ " " ++ p.
Proof.
  revert ps. induction cs as [|c' cs IH]; intros [|p' ps]; simpl;
    try discriminate.
  - intros _. now reassociate.
  - intros [= E]. rewrite (IH ps E). now reassociate.
Qed.

Lemma middle_loop_links (middle : list string) :
  forall (result : string) (g : rng),
  exists ts,
    length ts = length middle
    /\ (forall t, In t ts -> In t transitions)
    /\ fst (middle_loop middle result g) = result ++ link ts middle.
Proof.
  induction middle as [|p rest IH]; intros result g; cbn [middle_loop].
  - exists []. repeat split; [intros t [] | simpl].
    now reassociate.
  - destruct (get_random_transition g) as [t g'] eqn:Et.
    destruct (IH (result ++ ", " ++ t ++ " " ++ p) g') as (ts & Hl & Hin & E).
    exists (t :: ts). repeat split.
    + simpl. now rewrite Hl.
    + intros t' [<-|H]; [|now apply Hin].
      replace t with (fst (get_random_transition g)) by now rewrite Et.
      apply get_random_transition_in.
    + rewrite E. cbn [link]. now reassociate.
Qed.

Lemma slice_middle (first : string) (rest : list string) :
  slice 1 (length (first :: rest) - 1) (first :: rest) = removelast rest.
Proof.
  unfold slice. cbn [skipn length]. rewrite removelast_firstn_len.
  f_equal. lia.
Qed.

Lemma and_finally_not_transition : ~ In "and finally" transitions.
Proof. simpl. intros [H|[H|[H|[]]]]; discriminate. Qed.

End Sentences.

(** C2. The sentence for [N >= 1] phrases holds the phrases in the order
    received, each but the first behind a connective, [N - 1] connectives in
    all; every connective but the last is drawn from the transitions; the
    last one is "and finally" exactly when [N >= 3]; and for [N = 2] the
    single connective is drawn from the transitions. *)
Theorem day_sentence_connectives
  (one many first : string) (rest : list string) (result : string) (g : rng) :
  let parts := first :: rest in
  exists connectives,
    length connectives = length parts - 1
    /\ fst (day_sentence one many parts result g)
       = result ++ (if (length parts =? 1)%nat then one else many)
         ++ first ++ link connectives rest ++ "."
    /\ (forall t, In t (removelast connectives) -> In t transitions)
    /\ (3 <= length parts <-> last connectives "" = "and finally")
    /\ (length parts = 2 ->
        exists t, connectives = [t] /\ In t transitions).
Proof.
  intros parts. subst parts.
  destruct rest as [|second rest].
  - exists []. cbn. repeat split; try tauto; try lia; discriminate.
  - destruct rest as [|third rest].
    + exists [fst (get_random_transition g)].
      unfold day_sentence. cbn [length Nat.eqb nth].
      destruct (get_random_transition g) as [t g'] eqn:Et. cbn [fst link].
      assert (Ht : In t transitions).
      { replace t with (fst (get_random_transition g)) by now rewrite Et.
        apply get_random_transition_in. }
      repeat split; try (simpl; lia); try tauto.
      * now reassociate.
      * intros E. cbn in E. subst t. now apply and_finally_not_transition in Ht.
      * intros _. now exists t.
    + set (tail := second :: third :: rest).
      assert (Hn : tail <> []) by discriminate.
      unfold day_sentence.
      replace (length (first :: tail) =? 1)%nat with false by reflexivity.
      replace (length (first :: tail) =? 2)%nat with false by reflexivity.
      rewrite slice_middle.
      destruct (middle_loop_links (removelast tail)
                  (result ++ many ++ nth 0 (first :: tail) "") g)
        as (ts & Hl & Hin & E).
      destruct (middle_loop (removelast tail)
                  (result ++ many ++ nth 0 (first :: tail) "") g)
        as [r g'] eqn:Em.
      cbn [fst] in *. subst r.
      exists (ts ++ ["and finally"])%list. repeat split.
      * rewrite length_app, Hl. cbn [length].
        rewrite (app_removelast_last "" Hn) at 2.
        rewrite length_app. cbn [length]. lia.
      * replace (last (first :: tail) "") with (last tail "") by reflexivity.
        replace (link (ts ++ ["and finally"]) tail)
          with (link (ts ++ ["and finally"])
                  (removelast tail ++ [last tail ""]))
          by now rewrite <- app_removelast_last.
        rewrite link_app by exact Hl.
        cbn [nth]. now reassociate.
      * intros t. rewrite removelast_last. apply Hin.
      * intros _. apply last_last.
      * intros _. simpl. lia.
      * simpl. discriminate.
Qed.

(** ** The briefing *)

Definition standup : event := mk_event "Standup" "09:00 AM" "09:15 AM" "Alice".
Definition review : event := mk_event "Review" "02:00 PM" "03:00 PM" "Bob".

(** Eight o'clock, the user Sam, and any random source. *)
Definition sam_at_eight (g : rng) : world :=
  {| current_hour := 8; user_name_store := Returns "Sam"; draws := g |}.

Lemma standup_review_parts :
  create_meeting_summary "Sam" [standup; review]
  = Returns ["Standup from 9 to 9 15 with Alice"; "Review from 2 to 3 with Bob"].
Proof. reflexivity. Qed.

(** C1. With the events Standup (09:00 AM to 09:15 AM, organizer Alice) and
    Review (02:00 PM to 03:00 PM, organizer Bob) today, no data for tomorrow,
    the user Sam and the hour 8, the briefing is "Good morning Sam! You start
    your day with Standup from 9 to 9 15 with Alice, <t> Review from 2 to 3
    with Bob." for a transition [t], whatever the random source. *)
Theorem get_ai_day_analysis_standup_review (g : rng) (events_summary : string) :
  exists t,
    In t transitions
    /\ get_ai_day_analysis (sam_at_eight g) events_summary
         [standup; review] None
       = Returns ("Good morning Sam! You start your day with Standup from 9 to 9 15 with Alice, "
                  ++ t ++ " Review from 2 to 3 with Bob.").
Proof.
  exists (fst (get_random_transition g)).
  split; [apply get_random_transition_in|].
  unfold get_ai_day_analysis, day_analysis_body.
  cbn [nonempty truthy_opt negb andb sam_at_eight user_name_store
       current_hour draws bind].
  rewrite standup_review_parts. cbn [bind].
  unfold day_sentence. cbn [length Nat.eqb nth].
  destruct (get_random_transition g) as [t g']. reflexivity.
Qed.

(** C3 at a tomorrow that is present but empty: the briefing is the one for
    an absent tomorrow, with no sentence about tomorrow; for Standup alone
    it ends behind today's sentence. *)
Theorem get_ai_day_analysis_empty_tomorrow :
  (forall (w : world) (events_summary : string) (events_data : list event),
     get_ai_day_analysis w events_summary events_data (Some [])
     = get_ai_day_analysis w events_summary events_data None)
  /\ (forall g : rng,
        get_ai_day_analysis (sam_at_eight g) "" [standup] (Some [])
        = Returns "Good morning Sam! You start your day with Standup from 9 to 9 15 with Alice.")
  /\ (forall g : rng,
        get_ai_day_analysis (sam_at_eight g) "" [] (Some [standup])
        = Returns "Good morning Sam! You have a free day today. Tomorrow you have Standup from 9 to 9 15 with Alice.").
Proof. repeat split; reflexivity. Qed.

(** C7. [get_ai_day_analysis] returns a string on every input and never
    raises: what the body returns is returned, and an exception raised in the
    body becomes the apology that names it; so with no event at all and no
    user name to read, or with an event that lacks a field. *)
Theorem get_ai_day_analysis_never_raises
  (w : world) (events_summary : string) (events_data : list event)
  (tomorrow_events_data : option (list event)) :
  (exists sentence,
     get_ai_day_analysis w events_summary events_data tomorrow_events_data
     = Returns sentence
     /\ (forall e,
           day_analysis_body w events_data tomorrow_events_data = Raises e ->
           sentence
           = "Sorry, I couldn't create your day summary due to an error: "
             ++ exn_str e)
     /\ (forall s,
           day_analysis_body w events_data tomorrow_events_data = Returns s ->
           sentence = s))
  /\ get_ai_day_analysis
       {| current_hour := current_hour w;
          user_name_store := Raises (EOFError "EOF when reading a line");
          draws := draws w |} events_summary [] None
     = Returns "Sorry, I couldn't create your day summary due to an error: EOF when reading a line"
  /\ get_ai_day_analysis (sam_at_eight (draws w)) events_summary
       [[("subject", "Standup"); ("start_time", "09:00 AM")]] None
     = Returns "Sorry, I couldn't create your day summary due to an error: 'organizer'".
Proof.
  split; [|split; reflexivity].
  unfold get_ai_day_analysis, try_except.
  destruct (day_analysis_body w events_data tomorrow_events_data) as [s|e].
  - exists s. repeat split; congruence.
  - exists (apology e). repeat split; [|discriminate].
    intros e' [= <-]. reflexivity.
Qed.

(** ** The free day *)

Section Occurrences.

Lemma prefix_other_head (c d : ascii) (p t : string) :
  c <> d -> prefix (String c p) (String d t) = false.
Proof. intros N. simpl. now destruct (ascii_dec c d). Qed.

Lemma occurrences_absent (c : ascii) (p t : string) :
  ~ In c (chars t) -> occurrences (String c p) t = 0.
Proof.
  induction t as [|d t IH]; intros H; [reflexivity|].
  cbn [occurrences]. rewrite prefix_other_head.
  - apply IH. intros Hin. apply H. now right.
  - intros ->. apply H. now left.
Qed.

(** A string whose first character occurs nowhere else in a text occurs
    once in it. *)
Lemma occurrences_once (c : ascii) (p pre post : string) :
  ~ In c (chars pre) -> ~ In c (chars (p ++ post)) ->
  occurrences (String c p) (pre ++ String c p ++ post) = 1.
Proof.
  intros Hpre Hrest. induction pre as [|d pre IH].
  - cbn [append occurrences].
    assert (E : prefix (String c p) (String c (p ++ post)) = true)
      by (apply prefix_iff; now exists post).
    rewrite E. now rewrite occurrences_absent.
  - cbn [append occurrences]. rewrite prefix_other_head.
    + apply IH. intros Hin. apply Hpre. now right.
    + intros ->. apply Hpre. now left.
Qed.

Lemma in_chars_append (c : ascii) (a b : string) :
  In c (chars (a ++ b)) <-> In c (chars a) \/ In c (chars b).
Proof. rewrite chars_append. apply in_app_iff. Qed.

Lemma greeting_initial (hour : nat) :
  exists rest,
    get_time_greeting hour = String "G" rest /\ ~ In "G"%char (chars rest).
Proof.
  unfold get_time_greeting.
  repeat match goal with
  | |- context [if ?b then _ else _] => destruct b
  end;
    (eexists; split; [reflexivity|]; cbn;
     intros H; repeat destruct H as [H|H]; try discriminate H; exact H).
Qed.

Lemma free_day_tail_no_G : ~ In "G"%char (chars (" " ++ free_day_tail)).
Proof.
  apply absent_char. reflexivity.
Qed.

End Occurrences.

(** C9, as the code has it. With no event today and no data for tomorrow the
    briefing is the one sentence "<greeting> <name>! You have a free day
    with no scheduled meetings - perfect time to catch up on personal
    projects or take a well-deserved break!", in which the greeting and the
    name are written once each; the greeting occurs exactly once where the
    name holds no "G", and the name occurs exactly once where its first
    character occurs nowhere else in the sentence. *)
Theorem get_ai_day_analysis_free_day
  (hour : nat) (name : string) (g : rng) (events_summary : string) :
  let w :=
    {| current_hour := hour; user_name_store := Returns name; draws := g |} in
  let greeting := get_time_greeting hour in
  let sentence := greeting ++ " " ++ name ++ free_day_tail in
  get_ai_day_analysis w events_summary [] None = Returns sentence
  /\ (~ In "G"%char (chars name) -> occurrences greeting sentence = 1)
  /\ (forall c rest,
        name = String c rest ->
        ~ In c (chars (greeting ++ " ")) ->
        ~ In c (chars (rest ++ free_day_tail)) ->
        occurrences name sentence = 1).
Proof.
  intros w greeting sentence. split; [reflexivity|]. split.
  - intros Hname. subst sentence greeting.
    destruct (greeting_initial hour) as (rest & -> & Hrest).
    apply (occurrences_once "G" rest "" (" " ++ name ++ free_day_tail));
      [intros [] |].
    rewrite in_chars_append. intros [H|H]; [now apply Hrest|].
    change (" " ++ name ++ free_day_tail)
      with (String " " (name ++ free_day_tail)) in H.
    destruct H as [H|H]; [discriminate|].
    apply in_chars_append in H as [H|H]; [now apply Hname|].
    apply free_day_tail_no_G. now right.
  - intros c rest -> Hpre Hpost. subst sentence.
    replace (greeting ++ " " ++ String c rest ++ free_day_tail)
      with ((greeting ++ " ") ++ String c rest ++ free_day_tail)
      by now rewrite append_assoc.
    now apply occurrences_once.
Qed.

Lemma get_ai_day_analysis_free_day_witness :
  get_ai_day_analysis (sam_at_eight (fun _ => 0)) "" [] None
  = Returns "Good morning Sam! You have a free day with no scheduled meetings - perfect time to catch up on personal projects or take a well-deserved break!"
  /\ occurrences "Good morning" "Good morning Sam! You have a free day with no scheduled meetings - perfect time to catch up on personal projects or take a well-deserved break!" = 1
  /\ occurrences "Sam" "Good morning Sam! You have a free day with no scheduled meetings - perfect time to catch up on personal projects or take a well-deserved break!" = 1.
Proof.
  destruct (get_ai_day_analysis_free_day 8 "Sam" (fun _ => 0) "")
    as (Hs & Hg & Hn).
  split; [exact Hs | split].
  - apply Hg. apply absent_char. reflexivity.
  - apply (Hn "S"%char "am" eq_refl); apply absent_char; reflexivity.
Defined.

(** The free-day briefing for the user "a". *)
Definition free_day_for_a : string :=
  "Good morning a! You have a free day with no scheduled meetings - perfect time to catch up on personal projects or take a well-deserved break!".

(** C9, as it is worded, fails for the user name "a": the sentence holds it
    nine times. *)
Lemma get_ai_day_analysis_free_day_name_a :
  get_ai_day_analysis
    {| current_hour := 8; user_name_store := Returns "a";
       draws := fun _ => 0 |} "" [] None
  = Returns free_day_for_a
  /\ occurrences "a" free_day_for_a = 9.
Proof. split; reflexivity. Qed.

(** ** The briefing and the sentence for today *)

(** With events today and no data for tomorrow, the briefing is the greeting
    followed by the sentence for today's phrases. *)
Lemma get_ai_day_analysis_today_sentence
  (w : world) (events_summary name : string) (events_data : list event)
  (first : string) (rest : list string) :
  user_name_store w = Returns name ->
  create_meeting_summary name events_data = Returns (first :: rest) ->
  get_ai_day_analysis w events_summary events_data None
  = Returns (fst (day_sentence "You start your day with "
                    "You start your day with " (first :: rest)
                    (get_time_greeting (current_hour w) ++ " " ++ name ++ "! ")
                    (draws w))).
Proof.
  intros Hname Hparts.
  unfold get_ai_day_analysis, day_analysis_body.
  destruct events_data as [|e events]; [discriminate Hparts|].
  cbn [nonempty negb andb truthy_opt]. rewrite Hname. cbn [bind].
  rewrite Hparts. cbn [bind].
  now destruct (day_sentence _ _ _ _ _).
Qed.

Example day_sentence_three_phrases :
  fst (day_sentence " Tomorrow you have " " Tomorrow you start with "
         ["Standup from 9 to 10"; "Review from 2 to 3"; "Retro from 4 to 5"]
         "Good evening Sam! You have a free day today." (fun _ => 1))
  = "Good evening Sam! You have a free day today. Tomorrow you start with Standup from 9 to 10, then Review from 2 to 3, and finally Retro from 4 to 5.".
Proof. reflexivity. Qed.

(** * Further properties of the pipeline *)

(** ** [clean_text_for_tts]: what is kept *)

Section Kept.
Local Open Scope list_scope.

Definition alnums (l : list ascii) : list ascii := filter is_alnum l.

Lemma separator_not_alnum (c : ascii) :
  is_separator c = true -> is_alnum c = false.
Proof. each_char c. Qed.

Lemma space_not_alnum (c : ascii) : is_space c = true -> is_alnum c = false.
Proof. each_char c. Qed.

Lemma nonword_not_alnum (c : ascii) : is_word c = false -> is_alnum c = false.
Proof. each_char c. Qed.

Lemma alnums_replace_separators (l : list ascii) :
  alnums (replace_separators l) = alnums l.
Proof.
  unfold alnums. induction l as [|c l IH]; [reflexivity|].
  cbn [replace_separators map filter]. fold (replace_separators l).
  rewrite IH. destruct (is_separator c) eqn:E; [|reflexivity].
  now rewrite (separator_not_alnum _ E).
Qed.

Lemma alnums_remove_specials (l : list ascii) :
  alnums (remove_specials l) = alnums l.
Proof.
  unfold alnums, remove_specials. induction l as [|c l IH]; [reflexivity|].
  cbn [filter]. destruct (is_word c) eqn:Ew; cbn [orb].
  - cbn [filter]. now rewrite IH.
  - rewrite (nonword_not_alnum _ Ew).
    destruct (is_space c); [cbn [filter]; rewrite (nonword_not_alnum _ Ew)|];
      exact IH.
Qed.

Lemma alnums_collapse_spaces (b : bool) (l : list ascii) :
  alnums (collapse_spaces b l) = alnums l.
Proof.
  unfold alnums. revert b. induction l as [|c l IH]; intros b; [reflexivity|].
  cbn [collapse_spaces filter]. destruct (is_space c) eqn:Es.
  - rewrite (space_not_alnum _ Es).
    destruct b; [apply IH | cbn [filter]; apply IH].
  - cbn [filter]. now rewrite IH.
Qed.

Lemma alnums_lstrip (l : list ascii) : alnums (lstrip l) = alnums l.
Proof.
  unfold alnums. induction l as [|c l IH]; [reflexivity|].
  cbn [lstrip]. destruct (is_space c) eqn:Es; [|reflexivity].
  cbn [filter]. now rewrite (space_not_alnum _ Es).
Qed.

Lemma alnums_rstrip (l : list ascii) : alnums (rstrip l) = alnums l.
Proof.
  unfold rstrip, alnums. rewrite filter_rev.
  fold (alnums (lstrip (rev l))). rewrite alnums_lstrip.
  unfold alnums. now rewrite filter_rev, rev_involutive.
Qed.

Lemma alnums_clean_chars (l : list ascii) : alnums (clean_chars l) = alnums l.
Proof.
  unfold clean_chars, strip.
  now rewrite alnums_rstrip, alnums_lstrip, alnums_collapse_spaces,
    alnums_remove_specials, alnums_replace_separators.
Qed.

Lemma length_collapse_spaces (b : bool) (l : list ascii) :
  length (collapse_spaces b l) <= length l.
Proof.
  revert b. induction l as [|c l IH]; intros b; simpl; [lia|].
  pose proof (IH true) as Ht. pose proof (IH false) as Hf.
  destruct (is_space c); [destruct b|]; simpl; lia.
Qed.

Lemma length_lstrip (l : list ascii) : length (lstrip l) <= length l.
Proof.
  induction l as [|c l IH]; simpl; [lia|].
  destruct (is_space c); simpl; lia.
Qed.

Lemma length_clean_chars (l : list ascii) : length (clean_chars l) <= length l.
Proof.
  unfold clean_chars, strip, rstrip. rewrite length_rev.
  etransitivity; [apply length_lstrip|]. rewrite length_rev.
  etransitivity; [apply length_lstrip|].
  etransitivity; [apply length_collapse_spaces|].
  unfold remove_specials. etransitivity; [apply filter_length_le|].
  unfold replace_separators. now rewrite length_map.
Qed.

(** A text in normal form without a letter or digit is empty. *)
Lemma normal_without_alnum (l : list ascii) :
  normal l -> alnums l = [] -> l = [].
Proof.
  intros (Hp & _ & Hh & _) Ha. destruct l as [|c l]; [reflexivity|].
  exfalso. apply Forall_inv in Hp. specialize (Hh c eq_refl).
  destruct Hp as [Hc| ->]; [|discriminate].
  unfold alnums in Ha. cbn [filter] in Ha. rewrite Hc in Ha. discriminate.
Qed.

Lemma alnums_nil_iff (l : list ascii) :
  alnums l = [] <-> forall c, In c l -> is_alnum c = false.
Proof.
  unfold alnums. split.
  - intros E c Hin. destruct (is_alnum c) eqn:Ec; [|reflexivity].
    assert (H : In c (filter is_alnum l)) by (apply filter_In; now split).
    rewrite E in H. destruct H.
  - intros H. induction l as [|c l IH]; [reflexivity|].
    cbn [filter]. rewrite (H c (or_introl eq_refl)).
    apply IH. intros d Hd. apply H. now right.
Qed.

Lemma length_chars (s : string) : length (chars s) = String.length s.
Proof. induction s as [|c s IH]; simpl; [reflexivity | now rewrite <- IH]. Qed.

End Kept.

(** X1. Cleaning keeps the letters and digits of a text, all of them and in
    their order, and drops or replaces only other characters; the result is
    never longer than the text, and it is empty exactly when the text holds
    no letter and no digit. *)
Theorem clean_text_for_tts_keeps_alnum (x : string) :
  exists y,
    clean_text_for_tts (Some x) = Some y
    /\ filter is_alnum (chars y) = filter is_alnum (chars x)
    /\ String.length y <= String.length x
    /\ (y = "" <-> forall c, In c (chars x) -> is_alnum c = false).
Proof.
  assert (H : exists y, clean_text_for_tts (Some x) = Some y
                        /\ chars y = clean_chars (chars x)).
  { destruct x as [|a x]; [now exists ""|].
    eexists. split; [reflexivity | apply chars_text]. }
  destruct H as (y & Hy & Ec). exists y. split; [exact Hy|].
  assert (Ea : alnums (chars y) = alnums (chars x))
    by (rewrite Ec; apply alnums_clean_chars).
  split; [exact Ea | split].
  - rewrite <- !length_chars, Ec. apply length_clean_chars.
  - rewrite <- alnums_nil_iff, <- Ea. split; [now intros ->|].
    intros E. apply chars_inj. apply normal_without_alnum; [|exact E].
    rewrite Ec. apply clean_chars_normal.
Qed.

(** ** [fix_24h_times_for_tts]: words and separators *)

(** What the scan makes of one word: four characters that match the pattern
    are converted, any other word stays. *)
Definition word_sub (w : list ascii) : list ascii :=
  match w with
  | [c1; c2; c3; c4] =>
      if military_pattern c1 c2 c3 c4 then chars (convert_24h_time w) else w
  | _ => w
  end.

Definition digit_char (d : nat) : ascii := ascii_of_nat (48 + d).

(** The four digits [d1 d2 d3 d4], as a time and as the scan treats them. *)
Definition digit_table_agrees : bool :=
  forallb (fun d1 => forallb (fun d2 => forallb (fun d3 => forallb (fun d4 =>
    let w := [digit_char d1; digit_char d2; digit_char d3; digit_char d4] in
    let hour := 10 * d1 + d2 in
    let minute := 10 * d3 + d4 in
    military_pattern (digit_char d1) (digit_char d2)
      (digit_char d3) (digit_char d4)
    && (text w =? military_text hour minute)%string
    && (convert_24h_time w =? spoken_embedded_time hour minute)%string
    && (text (sub_military false (chars (convert_24h_time w)))
        =? convert_24h_time w)%string)
    (seq 0 10)) (seq 0 6)) (seq 0 10)) (seq 0 3).

Section Words.
Local Open Scope list_scope.

Lemma digit_table_checked : digit_table_agrees = true.
Proof. vm_compute. reflexivity. Qed.

Lemma digit_table (d1 d2 d3 d4 : nat) :
  d1 <= 2 -> d2 <= 9 -> d3 <= 5 -> d4 <= 9 ->
  let w := [digit_char d1; digit_char d2; digit_char d3; digit_char d4] in
  military_pattern (digit_char d1) (digit_char d2)
    (digit_char d3) (digit_char d4) = true
  /\ text w = military_text (10 * d1 + d2) (10 * d3 + d4)
  /\ convert_24h_time w = spoken_embedded_time (10 * d1 + d2) (10 * d3 + d4)
  /\ sub_military false (chars (convert_24h_time w))
     = chars (convert_24h_time w).
Proof.
  intros H1 H2 H3 H4 w.
  pose proof digit_table_checked as T. unfold digit_table_agrees in T.
  assert (I1 : In d1 (seq 0 3)) by (apply in_seq; lia).
  assert (I2 : In d2 (seq 0 10)) by (apply in_seq; lia).
  assert (I3 : In d3 (seq 0 6)) by (apply in_seq; lia).
  assert (I4 : In d4 (seq 0 10)) by (apply in_seq; lia).
  rewrite forallb_forall in T. specialize (T d1 I1).
  rewrite forallb_forall in T. specialize (T d2 I2).
  rewrite forallb_forall in T. specialize (T d3 I3).
  rewrite forallb_forall in T. specialize (T d4 I4).
  cbv zeta in T. fold w in T.
  apply andb_true_iff in T as [T T4]. apply andb_true_iff in T as [T T3].
  apply andb_true_iff in T as [T1 T2].
  apply String.eqb_eq in T2, T3, T4.
  repeat split; auto.
  rewrite <- T4 at 2. now rewrite chars_text.
Qed.

Lemma range_50_digit (c : ascii) :
  in_range 48 50 c = true -> c = digit_char (digit_val c) /\ digit_val c <= 2.
Proof. each_char c; intros; split; try reflexivity; repeat constructor. Qed.

Lemma range_53_digit (c : ascii) :
  in_range 48 53 c = true -> c = digit_char (digit_val c) /\ digit_val c <= 5.
Proof. each_char c; intros; split; try reflexivity; repeat constructor. Qed.

Lemma decimal_digit (c : ascii) :
  is_decimal c = true -> c = digit_char (digit_val c) /\ digit_val c <= 9.
Proof. each_char c; intros; split; try reflexivity; repeat constructor. Qed.

(** A converted time is not rewritten again. *)
Lemma converted_is_stable (c1 c2 c3 c4 : ascii) :
  military_pattern c1 c2 c3 c4 = true ->
  sub_military false (chars (convert_24h_time [c1; c2; c3; c4]))
  = chars (convert_24h_time [c1; c2; c3; c4]).
Proof.
  unfold military_pattern. rewrite !andb_true_iff.
  intros [[[H1 H2] H3] H4].
  apply range_50_digit in H1 as [E1 B1]. apply decimal_digit in H2 as [E2 B2].
  apply range_53_digit in H3 as [E3 B3]. apply decimal_digit in H4 as [E4 B4].
  rewrite E1, E2, E3, E4. now apply digit_table.
Qed.

(** A character that is not a word character ends the scan of what is in
    front of it. *)
Lemma sub_military_snoc (n : nat) :
  forall (pre : list ascii) (c : ascii) (p : bool),
    length pre <= n -> is_word c = false ->
    sub_military p (pre ++ [c]) = sub_military p pre ++ [c].
Proof.
  induction n as [|n IH]; intros pre c p Hlen Hc.
  - destruct pre; [|simpl in Hlen; lia]. cbn [app].
    now rewrite sub_military_nonword.
  - destruct pre as [|c1 pre]; [cbn [app]; now rewrite sub_military_nonword|].
    simpl in Hlen.
    assert (Hshape : length pre < 3
                     \/ exists c2 c3 c4 pre', pre = c2 :: c3 :: c4 :: pre').
    { destruct pre as [|c2 [|c3 [|c4 pre']]]; simpl; try (left; lia).
      right. now exists c2, c3, c4, pre'. }
    destruct Hshape as [Hshort | (c2 & c3 & c4 & pre' & ->)].
    + rewrite <- app_comm_cons.
      rewrite (sub_military_step p c1 (pre ++ [c]))
        by now apply short_prefix_no_match.
      rewrite (sub_military_step p c1 pre).
      * rewrite <- app_comm_cons. f_equal. apply IH; [lia | assumption].
      * intros c2 c3 c4 rest E. subst pre. simpl in Hshort. lia.
    + rewrite <- !app_comm_cons, !sub_military_cons.
      unfold word_boundary. cbn [next_is_word].
      assert (En : next_is_word (pre' ++ [c]) = next_is_word pre').
      { destruct pre'; [exact Hc | reflexivity]. }
      rewrite En.
      destruct (xorb p (is_word c1) && military_pattern c1 c2 c3 c4
                && xorb (is_word c4) (next_is_word pre')).
      * rewrite <- app_assoc. f_equal.
        apply IH; [simpl in *; lia | assumption].
      * rewrite <- app_comm_cons. f_equal.
        apply (IH (c2 :: c3 :: c4 :: pre') c);
          [simpl in *; lia | assumption].
Qed.

(** The scan treats the text on either side of a character that is not a
    word character on its own, and copies that character. *)
Lemma sub_military_separator (pre rest : list ascii) (c : ascii) (p : bool) :
  is_word c = false ->
  sub_military p (pre ++ c :: rest)
  = sub_military p pre ++ c :: sub_military false rest.
Proof.
  intros Hc. rewrite (sub_military_split (length pre)) by auto.
  rewrite (sub_military_snoc (length pre)) by auto.
  now rewrite <- app_assoc.
Qed.

Lemma last_is_word_all (pre : list ascii) :
  Forall (fun c => is_word c = true) pre -> last_is_word pre = false ->
  pre = [].
Proof.
  destruct pre as [|c pre _] using rev_ind; [reflexivity|].
  intros H. apply Forall_app in H as [_ H]. apply Forall_inv in H.
  rewrite last_is_word_snoc. congruence.
Qed.

Lemma next_is_word_all (post : list ascii) :
  Forall (fun c => is_word c = true) post -> next_is_word post = false ->
  post = [].
Proof.
  destruct post as [|c post]; [reflexivity|].
  intros H. apply Forall_inv in H. cbn [next_is_word]. congruence.
Qed.

(** The scan of a single word. *)
Lemma sub_military_word (w : list ascii) :
  Forall (fun c => is_word c = true) w -> sub_military false w = word_sub w.
Proof.
  intros Hw.
  assert (Hother : length w <> 4 -> sub_military false w = w).
  { intros Hlen. apply (sub_military_unchanged w []).
    intros pre a b c d post E Hpre Hpost. cbn [app] in E. exfalso.
    rewrite E in Hw. apply Forall_app in Hw as [Hw1 Hw2].
    apply (last_is_word_all _ Hw1) in Hpre. subst pre.
    do 4 apply Forall_inv_tail in Hw2.
    apply (next_is_word_all _ Hw2) in Hpost. subst post.
    subst w. now apply Hlen. }
  destruct w as [|c1 [|c2 [|c3 [|c4 [|c5 w]]]]];
    try (cbn [word_sub]; apply Hother; simpl; lia).
  cbn [word_sub]. rewrite sub_military_cons. unfold word_boundary.
  cbn [next_is_word].
  destruct (military_pattern c1 c2 c3 c4) eqn:Hp.
  - destruct (pattern_is_words _ _ _ _ Hp) as [H1 H4].
    rewrite H1, H4. cbn [xorb andb sub_military]. now rewrite app_nil_r.
  - now rewrite andb_false_r.
Qed.

Lemma word_sub_stable (w : list ascii) :
  Forall (fun c => is_word c = true) w ->
  sub_military false (word_sub w) = word_sub w.
Proof.
  intros Hw.
  destruct w as [|c1 [|c2 [|c3 [|c4 [|c5 w]]]]];
    try (cbn [word_sub]; now apply sub_military_word).
  cbn [word_sub]. destruct (military_pattern c1 c2 c3 c4) eqn:Hp.
  - now apply converted_is_stable.
  - rewrite (sub_military_word _ Hw). cbn [word_sub]. now rewrite Hp.
Qed.

(** A text is one word, or a word, a separating character and a rest. *)
Lemma first_separator (l : list ascii) :
  Forall (fun c => is_word c = true) l
  \/ exists w c rest,
       l = w ++ c :: rest
       /\ Forall (fun c => is_word c = true) w /\ is_word c = false.
Proof.
  induction l as [|a l IH]; [left; constructor|].
  destruct (is_word a) eqn:Ea.
  - destruct IH as [H | (w & c & rest & -> & Hw & Hc)].
    + left. now constructor.
    + right. exists (a :: w), c, rest. repeat split; auto.
  - right. exists [], a, l. repeat split; auto.
Qed.

Lemma sub_military_stable (n : nat) :
  forall l : list ascii,
    length l <= n ->
    sub_military false (sub_military false l) = sub_military false l.
Proof.
  induction n as [|n IH]; intros l Hlen.
  - destruct l; [reflexivity | simpl in Hlen; lia].
  - destruct (first_separator l) as [Hw | (w & c & rest & -> & Hw & Hc)].
    + rewrite (sub_military_word _ Hw). now apply word_sub_stable.
    + rewrite (sub_military_separator _ _ _ _ Hc).
      rewrite (sub_military_word _ Hw).
      rewrite (sub_military_separator _ _ _ _ Hc).
      rewrite (word_sub_stable _ Hw). do 2 f_equal.
      apply IH. rewrite length_app in Hlen. simpl in Hlen. lia.
Qed.

End Words.

(** X2. Rewriting the embedded times of a text twice gives what rewriting
    them once gives: the spoken forms hold no four-digit word. *)
Theorem fix_24h_times_for_tts_idempotent (t : option string) :
  fix_24h_times_for_tts (fix_24h_times_for_tts t) = fix_24h_times_for_tts t.
Proof.
  destruct t as [s|]; [|reflexivity].
  rewrite !fix_24h_times_for_tts_some, chars_text.
  now rewrite (sub_military_stable (length (chars s))).
Qed.

(** X3. A text that is one word (letters, digits and underscores only) and
    not four characters long is left as it is, whatever digits it holds. *)
Theorem fix_24h_times_for_tts_other_words (s : string) :
  (forall c, In c (chars s) -> is_word c = true) ->
  String.length s <> 4 ->
  fix_24h_times_for_tts (Some s) = Some s.
Proof.
  intros Hw Hlen. rewrite fix_24h_times_for_tts_some. f_equal.
  rewrite <- (text_chars s) at 2. f_equal.
  rewrite sub_military_word by now apply Forall_forall.
  rewrite <- length_chars in Hlen.
  now destruct (chars s) as [|c1 [|c2 [|c3 [|c4 [|c5 w]]]]].
Qed.

Lemma fix_24h_times_for_tts_other_words_witness :
  fix_24h_times_for_tts (Some "12005") = Some "12005"
  /\ fix_24h_times_for_tts (Some "Q1_1200") = Some "Q1_1200".
Proof.
  split; apply fix_24h_times_for_tts_other_words;
    try (simpl; lia);
    intros c H; simpl in H;
    repeat (destruct H as [<-|H]; [reflexivity|]); destruct H.
Defined.

(** X4. A whole word [HHMM] with [HH] from 24 to 29 and [MM] from 00 to 59
    is rewritten as well: to the hour less 12, followed by the two-digit
    minute when that is not zero. *)
Theorem fix_24h_times_for_tts_hours_24_to_29
  (pre post : string) (hour minute : nat) :
  24 <= hour <= 29 -> minute <= 59 ->
  last_is_word (chars pre) = false -> next_is_word (chars post) = false ->
  fix_24h_times_for_tts (Some (pre ++ military_text hour minute ++ post))
  = Some (fmt (fix_24h_times_for_tts (Some pre))
          ++ str (hour - 12)
          ++ (if (minute =? 0)%nat then "" else " " ++ fmt_02d minute)
          ++ fmt (fix_24h_times_for_tts (Some post))).
Proof.
  intros Hh Hm Hpre Hpost.
  rewrite !fix_24h_times_for_tts_some. cbn [fmt]. f_equal.
  destruct (digit_table 2 (hour - 20) (minute / 10) (minute mod 10))
    as (Hp & Et & Ec & _); try lia.
  { assert (minute / 10 < 6) by (apply Nat.Div0.div_lt_upper_bound; lia). lia. }
  { assert (minute mod 10 < 10) by (apply Nat.mod_upper_bound; lia). lia. }
  replace (10 * 2 + (hour - 20)) with hour in * by lia.
  replace (10 * (minute / 10) + minute mod 10) with minute in *
    by (rewrite (Nat.div_mod_eq minute 10) at 1; reflexivity).
  rewrite !chars_append, <- Et, chars_text.
  rewrite sub_military_app by assumption.
  cbn [app]. rewrite (sub_military_time _ _ _ _ _ Hp Hpost).
  rewrite !text_app, text_chars, Ec.
  unfold spoken_embedded_time.
  replace (hour =? 0)%nat with false by (symmetry; apply Nat.eqb_neq; lia).
  replace (hour =? 12)%nat with false by (symmetry; apply Nat.eqb_neq; lia).
  replace (12 <? hour)%nat with true by (symmetry; apply Nat.ltb_lt; lia).
  destruct (minute =? 0)%nat; now reassociate.
Qed.

Lemma fix_24h_times_for_tts_hours_24_to_29_witness :
  fix_24h_times_for_tts (Some "Flight 2530 boards")
  = Some "Flight 13 30 boards".
Proof.
  apply (fix_24h_times_for_tts_hours_24_to_29 "Flight " " boards" 25 30);
    [lia | lia | reflexivity | reflexivity].
Defined.

(** ** [format_time_for_speech]: the pattern *)

(** The texts [(\d{1,2}):(\d{2})\s*(AM|PM)] matches at their head, with the
    three groups: one or two digits, a colon, two digits, any whitespace,
    the marker, and any rest. *)
Definition clock_shape (l h m : list ascii) (p : period) : Prop :=
  (length h = 1 \/ length h = 2)
  /\ Forall (fun c => is_decimal c = true) h
  /\ length m = 2
  /\ Forall (fun c => is_decimal c = true) m
  /\ exists ws rest,
       Forall (fun c => is_space c = true) ws
       /\ l = (h ++ ":"%char :: m ++ ws ++ chars (period_str p) ++ rest)%list.

Section Pattern.
Local Open Scope list_scope.
Local Open Scope char_scope.

Lemma lstrip_spaces (l : list ascii) :
  exists ws, Forall (fun c => is_space c = true) ws /\ l = ws ++ lstrip l.
Proof.
  induction l as [|c l (ws & Hws & E)]; [now exists []|].
  cbn [lstrip]. destruct (is_space c) eqn:Es.
  - exists (c :: ws). split; [now constructor | cbn [app]; now f_equal].
  - now exists [].
Qed.

Lemma lstrip_app_spaces (ws l : list ascii) :
  Forall (fun c => is_space c = true) ws -> lstrip (ws ++ l) = lstrip l.
Proof. induction 1 as [|c ws Hc _ IH]; cbn [app lstrip]; [|rewrite Hc]; auto. Qed.

Lemma lstrip_app_rest (l x : list ascii) :
  lstrip l <> [] -> lstrip (l ++ x) = lstrip l ++ x.
Proof.
  induction l as [|c l IH]; cbn [app lstrip]; [congruence|].
  destruct (is_space c); [exact IH | reflexivity].
Qed.

Lemma match_period_marker (l : list ascii) (p : period) :
  match_period l = Some p <-> exists rest, l = chars (period_str p) ++ rest.
Proof.
  split.
  - destruct l as [|a [|m rest]]; cbn [match_period]; try discriminate.
    destruct (a =? "A") eqn:Ea, (m =? "M") eqn:Em, (a =? "P") eqn:Ep;
      cbn [andb]; try discriminate;
      apply Ascii.eqb_eq in Em; try apply Ascii.eqb_eq in Ea;
      try apply Ascii.eqb_eq in Ep; subst; intros [= <-]; now exists rest.
  - intros [rest ->]. now destruct p.
Qed.

Lemma marker_not_space (p : period) (rest : list ascii) :
  lstrip (chars (period_str p) ++ rest) = chars (period_str p) ++ rest.
Proof. now destruct p. Qed.

Lemma match_minute_period_shape (h l g1 g2 : list ascii) (p : period) :
  match_minute_period h l = Some (g1, g2, p)
  <-> g1 = h /\ length g2 = 2 /\ Forall (fun c => is_decimal c = true) g2
      /\ exists ws rest,
           Forall (fun c => is_space c = true) ws
           /\ l = g2 ++ ws ++ chars (period_str p) ++ rest.
Proof.
  split.
  - destruct l as [|m1 [|m2 r]]; cbn [match_minute_period]; try discriminate.
    destruct (is_decimal m1) eqn:E1, (is_decimal m2) eqn:E2; cbn [andb];
      try discriminate.
    destruct (match_period (lstrip r)) as [q|] eqn:Eq; [|discriminate].
    intros [= <- <- <-]. apply match_period_marker in Eq as [rest Er].
    destruct (lstrip_spaces r) as (ws & Hws & Ews).
    repeat split; auto. exists ws, rest. split; [exact Hws|].
    cbn [app]. now rewrite <- Er, <- Ews.
  - intros (-> & Hlen & Hd & ws & rest & Hws & ->).
    destruct g2 as [|m1 [|m2 [|m3 g2]]]; try discriminate Hlen.
    apply Forall_inv in Hd as H1. apply Forall_inv_tail, Forall_inv in Hd.
    cbn [app match_minute_period]. rewrite H1, Hd. cbn [andb].
    rewrite (lstrip_app_spaces _ _ Hws), marker_not_space.
    now rewrite (proj2 (match_period_marker _ p)) by now exists rest.
Qed.

Lemma decimal_not_colon (c : ascii) : is_decimal c = true -> (c =? ":") = false.
Proof. each_char c. Qed.

Lemma match_time_shape (l h m : list ascii) (p : period) :
  match_time l = Some (h, m, p) <-> clock_shape l h m p.
Proof.
  unfold clock_shape. split.
  - destruct l as [|h1 [|h2 r2]]; cbn [match_time]; try discriminate.
    { now destruct (is_decimal h1). }
    destruct (is_decimal h1) eqn:E1; [|discriminate].
    destruct (is_decimal h2) eqn:E2.
    + destruct r2 as [|c r3]; [discriminate|].
      destruct (c =? ":") eqn:Ec; [|discriminate].
      apply Ascii.eqb_eq in Ec. subst c. intros H.
      apply match_minute_period_shape in H
        as (-> & Hlen & Hd & ws & rest & Hws & ->).
      repeat split; auto. exists ws, rest. now split.
    + destruct (h2 =? ":") eqn:Ec; [|discriminate].
      apply Ascii.eqb_eq in Ec. subst h2. intros H.
      apply match_minute_period_shape in H
        as (-> & Hlen & Hd & ws & rest & Hws & ->).
      repeat split; auto. exists ws, rest. now split.
  - intros (Hlen & Hd & Hm & Hmd & ws & rest & Hws & ->).
    assert (M : match_minute_period h
                  (m ++ ws ++ chars (period_str p) ++ rest) = Some (h, m, p)).
    { apply match_minute_period_shape. repeat split; auto.
      now exists ws, rest. }
    destruct h as [|h1 [|h2 [|h3 h]]]; cbn [length] in Hlen;
      try (destruct Hlen; discriminate).
    + apply Forall_inv in Hd. cbn [app match_time]. rewrite Hd.
      replace (is_decimal ":") with false by reflexivity.
      now rewrite Ascii.eqb_refl.
    + apply Forall_inv in Hd as H1. apply Forall_inv_tail, Forall_inv in Hd.
      cbn [app match_time]. rewrite H1, Hd. now rewrite Ascii.eqb_refl.
Qed.

Lemma match_time_rest (l x : list ascii) r :
  match_time l = Some r -> match_time (l ++ x) = Some r.
Proof.
  destruct r as [[h m] p]. rewrite !match_time_shape.
  intros (Hlen & Hd & Hm & Hmd & ws & rest & Hws & ->).
  repeat split; auto. exists ws, (rest ++ x). split; [exact Hws|].
  now rewrite <- !app_assoc, <- app_comm_cons, <- !app_assoc.
Qed.

End Pattern.

(** X5. [format_time_for_speech] finds the groups [h], [m] and the marker
    in a text exactly when the text is one or two digits [h], a colon, two
    digits [m], any run of whitespace, "AM" or "PM", and any rest: the
    matcher accepts what the pattern of line 514 describes, no more and no
    less. *)
Theorem match_time_is_the_pattern (s : string) (h m : list ascii) (p : period) :
  match_time (chars s) = Some (h, m, p) <-> clock_shape (chars s) h m p.
Proof.
  split; intros H.
  - now apply match_time_shape.
  - now apply match_time_shape in H.
Qed.

(** X6. What follows the marker is not looked at: a text that matches is
    spoken the same with any text behind it. *)
Theorem format_time_for_speech_ignores_rest (s extra : string) :
  match_time (chars s) <> None ->
  format_time_for_speech (s ++ extra) = format_time_for_speech s.
Proof.
  intros H. unfold format_time_for_speech.
  destruct (match_time (chars s)) as [r|] eqn:E; [|congruence].
  now rewrite chars_append, (match_time_rest _ _ _ E).
Qed.

Lemma format_time_for_speech_ignores_rest_witness :
  format_time_for_speech ("02:45 PM" ++ " (UTC)") = "2 45".
Proof.
  rewrite format_time_for_speech_ignores_rest; [reflexivity | discriminate].
Defined.

Definition same_spoken_hours : bool :=
  forallb (fun hour =>
    forallb (fun minute =>
      (format_time_for_speech (clock_text hour minute AM)
       =? format_time_for_speech (clock_text hour minute PM))%string)
      (seq 0 60))
    (seq 1 11)
  && forallb (fun minute =>
       negb (format_time_for_speech (clock_text 12 minute AM)
             =? format_time_for_speech (clock_text 12 minute PM))%string)
       (seq 0 60).

Lemma same_spoken_hours_checked : same_spoken_hours = true.
Proof. vm_compute. reflexivity. Qed.

(** X7. The marker is not spoken: for the hours 1 to 11 a time before noon
    and the same time after noon give the same phrase; only the hour 12 is
    told apart. *)
Theorem format_time_for_speech_drops_marker (hour minute : nat) :
  minute <= 59 ->
  (1 <= hour <= 11 ->
   format_time_for_speech (clock_text hour minute AM)
   = format_time_for_speech (clock_text hour minute PM))
  /\ format_time_for_speech (clock_text 12 minute AM)
     <> format_time_for_speech (clock_text 12 minute PM).
Proof.
  intros Hm. pose proof same_spoken_hours_checked as T.
  unfold same_spoken_hours in T. apply andb_true_iff in T as [T1 T2].
  assert (Im : In minute (seq 0 60)) by (apply in_seq; lia).
  split.
  - intros Hh. rewrite forallb_forall in T1.
    assert (Ih : In hour (seq 1 11)) by (apply in_seq; lia).
    specialize (T1 hour Ih). rewrite forallb_forall in T1.
    now apply String.eqb_eq, T1.
  - rewrite forallb_forall in T2. specialize (T2 minute Im).
    apply negb_true_iff in T2. now apply String.eqb_neq.
Qed.

Lemma format_time_for_speech_drops_marker_witness :
  format_time_for_speech "07:30 AM" = format_time_for_speech "07:30 PM"
  /\ format_time_for_speech "12:30 AM" <> format_time_for_speech "12:30 PM".
Proof.
  destruct (format_time_for_speech_drops_marker 7 30) as [H1 H2]; [lia|].
  split; [apply H1; lia | exact H2].
Defined.

(** ** [create_meeting_summary]: events and their fields *)

Definition has_key (e : event) (key : string) : Prop :=
  exists v, getitem e key = Returns v.

(** The four fields the summary reads. *)
Definition complete (e : event) : Prop :=
  has_key e "organizer" /\ has_key e "subject"
  /\ has_key e "start_time" /\ has_key e "end_time".

Definition summary_keys : list string :=
  ["organizer"; "subject"; "start_time"; "end_time"].

Section Fields.
Local Open Scope list_scope.

Lemma getitem_cases (e : event) (key : string) :
  (exists v, getitem e key = Returns v) \/ getitem e key = Raises (KeyError key).
Proof.
  induction e as [|[k v] e IH]; cbn [getitem]; [now right|].
  destruct (k =? key)%string; [left; now exists v | exact IH].
Qed.

Lemma meeting_part_cases (user_name : string) (e : event) :
  (complete e /\ exists p, meeting_part user_name e = Returns p)
  \/ (~ complete e
      /\ exists key, In key summary_keys
                     /\ meeting_part user_name e = Raises (KeyError key)).
Proof.
  unfold complete, has_key, summary_keys.
  destruct (getitem_cases e "organizer") as [[o Ho]|Ho];
    [|right; split;
      [intros ([v Hv] & _); congruence
      | exists "organizer"; split; [simpl; tauto|];
        unfold meeting_part; now rewrite Ho]].
  destruct (getitem_cases e "subject") as [[s Hs]|Hs];
    [|right; split;
      [intros (_ & [v Hv] & _); congruence
      | exists "subject"; split; [simpl; tauto|];
        unfold meeting_part; now rewrite Ho, Hs]].
  destruct (getitem_cases e "start_time") as [[st Hst]|Hst];
    [|right; split;
      [intros (_ & _ & [v Hv] & _); congruence
      | exists "start_time"; split; [simpl; tauto|];
        unfold meeting_part; now rewrite Ho, Hs, Hst]].
  destruct (getitem_cases e "end_time") as [[et Het]|Het];
    [|right; split;
      [intros (_ & _ & _ & [v Hv]); congruence
      | exists "end_time"; split; [simpl; tauto|];
        unfold meeting_part; now rewrite Ho, Hs, Hst, Het]].
  left. split; [repeat split; eexists; eassumption|].
  rewrite (meeting_part_fields _ _ _ _ _ _ Ho Hs Hst Het).
  destruct (_ && _); eexists; reflexivity.
Qed.

Lemma create_meeting_summary_cases (user_name : string) (events : list event) :
  (Forall complete events
   /\ exists parts,
        create_meeting_summary user_name events = Returns parts
        /\ Forall2 (fun e p => meeting_part user_name e = Returns p)
             events parts)
  \/ (~ Forall complete events
      /\ exists key,
           In key summary_keys
           /\ create_meeting_summary user_name events = Raises (KeyError key)).
Proof.
  induction events as [|e events IH]; cbn [create_meeting_summary].
  - left. split; [constructor | exists []; split; [reflexivity | constructor]].
  - destruct (meeting_part_cases user_name e)
      as [(Hc & p & Hp) | (Hn & key & Hk & Hp)]; rewrite Hp; cbn [bind].
    + destruct IH as [(Hall & parts & -> & H2) | (Hn & key & Hk & ->)];
        cbn [bind].
      * left. split; [now constructor|].
        exists (p :: parts). split; [reflexivity | now constructor].
      * right. split; [|now exists key].
        intros H. apply Hn. now apply Forall_inv_tail in H.
    + right. split; [|now exists key].
      intros H. apply Hn. now apply Forall_inv in H.
Qed.

Lemma create_meeting_summary_length
  (user_name : string) (events : list event) (parts : list string) :
  create_meeting_summary user_name events = Returns parts ->
  length parts = length events.
Proof.
  intros H.
  destruct (create_meeting_summary_cases user_name events)
    as [(_ & parts' & E & H2) | (_ & key & _ & E)]; [|congruence].
  rewrite E in H. injection H as <-. symmetry.
  now apply Forall2_length in H2.
Qed.

End Fields.

(** X8. [create_meeting_summary] returns exactly when every event has the
    fields organizer, subject, start_time and end_time; it then gives one
    phrase for each event, in the order of the events; otherwise it raises
    the [KeyError] of one of these four fields. *)
Theorem create_meeting_summary_complete
  (user_name : string) (events : list event) :
  ((exists parts, create_meeting_summary user_name events = Returns parts)
   <-> Forall complete events)
  /\ (forall parts,
        create_meeting_summary user_name events = Returns parts ->
        Forall2 (fun e p => meeting_part user_name e = Returns p) events parts
        /\ length parts = length events)
  /\ (forall e,
        create_meeting_summary user_name events = Raises e ->
        exists key, In key summary_keys /\ e = KeyError key).
Proof.
  destruct (create_meeting_summary_cases user_name events)
    as [(Hall & parts & E & H2) | (Hn & key & Hk & E)]; rewrite E.
  - split; [split; [auto | now exists parts]|]. split.
    + intros parts' [= <-]. split; [exact H2|].
      symmetry. now apply Forall2_length in H2.
    + discriminate.
  - split; [split; [intros [parts H]; discriminate | contradiction]|]. split.
    + discriminate.
    + intros e [= <-]. now exists key.
Qed.

(** X9. For an event without an organizer the test of line 561 runs on the
    words "Unknown organizer": the phrase has no suffix exactly when the
    user name is not empty and is, letter case apart, a substring of
    "Unknown organizer", and ends with " with Unknown organizer" otherwise. *)
Theorem meeting_part_without_organizer
  (user_name : string) (e : event) (subject start_time end_time : string) :
  getitem e "organizer" = Returns "" ->
  getitem e "subject" = Returns subject ->
  getitem e "start_time" = Returns start_time ->
  getitem e "end_time" = Returns end_time ->
  let base := phrase_base subject start_time end_time in
  let named :=
    user_name <> "" /\ substring_of (lower user_name) "unknown organizer" in
  (named -> meeting_part user_name e = Returns base)
  /\ (~ named ->
      meeting_part user_name e = Returns (base ++ " with Unknown organizer")).
Proof.
  intros Ho Hs Hst Het base named.
  rewrite (meeting_part_fields _ _ _ _ _ _ Ho Hs Hst Het). fold base.
  cbn [organizer_or_unknown truthy].
  change (lower "Unknown organizer") with "unknown organizer".
  destruct (truthy user_name) eqn:Eu; cbn [andb].
  - apply (proj1 (truthy_iff _)) in Eu.
    destruct (contains (lower user_name) "unknown organizer") eqn:Ec.
    + split; [reflexivity|]. intros N. exfalso. apply N.
      split; [exact Eu | now apply contains_iff].
    + split; [|reflexivity]. intros [_ H]. apply contains_iff in H. congruence.
  - split; [|reflexivity]. intros [H _]. apply (proj2 (truthy_iff _)) in H.
    congruence.
Qed.

Lemma meeting_part_without_organizer_witness :
  meeting_part "Ian" (mk_event "Retro" "04:00 PM" "05:00 PM" "")
  = Returns "Retro from 4 to 5 with Unknown organizer"
  /\ meeting_part "Organ" (mk_event "Retro" "04:00 PM" "05:00 PM" "")
     = Returns "Retro from 4 to 5".
Proof.
  split.
  - apply (meeting_part_without_organizer "Ian"
             (mk_event "Retro" "04:00 PM" "05:00 PM" "")
             "Retro" "04:00 PM" "05:00 PM"); try reflexivity.
    intros [_ H]. apply contains_iff in H. discriminate.
  - apply (meeting_part_without_organizer "Organ"
             (mk_event "Retro" "04:00 PM" "05:00 PM" "")
             "Retro" "04:00 PM" "05:00 PM"); try reflexivity.
    split; [discriminate | now exists "unknown ", "izer"].
Defined.

(** ** The sentence for one day and the random source *)

(** The transition the [k]-th number of the source selects. *)
Definition drawn (g : rng) (k : nat) : string :=
  nth (g k mod length transitions) transitions "".

(** The connectives of a sentence for a first phrase and the phrases [rest]:
    none, one drawn transition, or a drawn transition before every phrase but
    the last and "and finally" before the last. *)
Definition connectives_of (g : rng) (rest : list string) : list string :=
  match rest with
  | [] => []
  | [_] => [drawn g 0]
  | _ => (map (drawn g) (seq 0 (length rest - 1)) ++ ["and finally"])%list
  end.

(** The numbers a sentence takes from the source. *)
Definition draws_taken (rest : list string) : nat :=
  match rest with
  | [] => 0
  | [_] => 1
  | _ => length rest - 1
  end.

Section Draws.
Local Open Scope list_scope.

Lemma middle_loop_by_draws (middle : list string) :
  forall (result : string) (g : rng),
    middle_loop middle result g
    = ((result ++ link (map (drawn g) (seq 0 (length middle))) middle)%string,
       fun i => g (length middle + i)).
Proof.
  induction middle as [|p middle IH]; intros result g.
  - cbn. now rewrite append_empty_r.
  - cbn [middle_loop get_random_transition choice].
    rewrite IH. cbn [length seq map link]. f_equal.
    rewrite <- seq_shift, map_map. unfold drawn at 1. cbn [length].
    change (nth (g 0 mod 3) transitions "") with (drawn g 0).
    rewrite (map_ext (fun k => drawn (fun i => g (S i)) k)
                     (fun k => drawn g (S k))) by reflexivity.
    now reassociate.
Qed.

Lemma day_sentence_prefix
  (one many : string) (parts : list string) (result : string) (g : rng) :
  exists r, fst (day_sentence one many parts result g) = (result ++ r)%string.
Proof.
  unfold day_sentence.
  destruct (length parts =? 1)%nat; [eexists; cbn [fst]; reflexivity|].
  destruct (length parts =? 2)%nat.
  - cbn [get_random_transition choice fst]. eexists. reflexivity.
  - rewrite middle_loop_by_draws. cbn [fst]. eexists.
    rewrite !append_assoc. reflexivity.
Qed.

Lemma day_sentence_opening
  (one many first : string) (rest : list string) (result : string) (g : rng) :
  exists r,
    fst (day_sentence one many (first :: rest) result g)
    = (result ++ (match rest with [] => one | _ => many end) ++ r)%string.
Proof.
  unfold day_sentence. destruct rest as [|second [|third rest]].
  - exists (first ++ ".")%string. reflexivity.
  - exists (first ++ ", " ++ drawn g 0 ++ " " ++ second ++ ".")%string.
    reflexivity.
  - replace (length (first :: second :: third :: rest) =? 1)%nat
      with false by reflexivity.
    replace (length (first :: second :: third :: rest) =? 2)%nat
      with false by reflexivity.
    rewrite middle_loop_by_draws. cbn [fst nth]. rewrite !append_assoc.
    eexists. reflexivity.
Qed.

End Draws.

(** X10. The sentence for one day is fixed by the random source: a single
    phrase takes no number from it, two phrases take one, and [N >= 3]
    phrases take [N - 2]; the [k]-th number taken selects the [k]-th
    transition of the sentence, and the source is left behind the numbers
    taken. *)
Theorem day_sentence_by_draws
  (one many first : string) (rest : list string) (result : string) (g : rng) :
  fst (day_sentence one many (first :: rest) result g)
  = result ++ (match rest with [] => one | _ => many end)
    ++ first ++ link (connectives_of g rest) rest ++ "."
  /\ forall i,
       snd (day_sentence one many (first :: rest) result g) i
       = g (draws_taken rest + i).
Proof.
  destruct rest as [|second [|third rest]].
  - split; [|reflexivity]. cbn. now reassociate.
  - split; [|reflexivity].
    unfold day_sentence. cbn [length Nat.eqb nth get_random_transition choice
                              fst connectives_of link].
    change (nth (g 0 mod 3) transitions "") with (drawn g 0).
    now reassociate.
  - set (tail := second :: third :: rest).
    assert (Hn : tail <> []) by discriminate.
    unfold day_sentence.
    replace (length (first :: tail) =? 1)%nat with false by reflexivity.
    replace (length (first :: tail) =? 2)%nat with false by reflexivity.
    rewrite slice_middle, middle_loop_by_draws. cbn [fst snd].
    assert (El : length (removelast tail) = length tail - 1).
    { rewrite (app_removelast_last "" Hn) at 2.
      rewrite length_app. cbn [length]. lia. }
    split.
    + replace (connectives_of g tail)
        with (map (drawn g) (seq 0 (length tail - 1)) ++ ["and finally"])%list
        by reflexivity.
      replace (last (first :: tail) "") with (last tail "") by reflexivity.
      replace (link (map (drawn g) (seq 0 (length tail - 1))
                     ++ ["and finally"]) tail)
        with (link (map (drawn g) (seq 0 (length tail - 1))
                    ++ ["and finally"])
                (removelast tail ++ [last tail ""]))
        by now rewrite <- app_removelast_last.
      rewrite link_app by (now rewrite length_map, length_seq).
      rewrite El. cbn [nth]. now reassociate.
    + intros i. now rewrite El.
Qed.

(** ** The briefing: openings, both days, failures *)

Section Briefing.

(** The body for a user name that could be read, past the free-day test:
    today's sentence, then tomorrow's. *)
Definition with_tomorrow (user_name : string)
  (tomorrow_events_data : option (list event)) (today : string * rng)
  : outcome string :=
  let (result, g) := today in
  if truthy_opt tomorrow_events_data then
    tomorrow_parts <-
      create_meeting_summary user_name
        (match tomorrow_events_data with Some l => l | None => [] end) ;;
    if nonempty tomorrow_parts then
      Returns (fst (day_sentence " Tomorrow you have "
                      " Tomorrow you start with " tomorrow_parts result g))
    else Returns (result ++ " Tomorrow is free with no scheduled meetings.")
  else Returns result.

Lemma day_analysis_body_with_events
  (w : world) (name : string) (e : event) (events : list event)
  (tomorrow_events_data : option (list event)) :
  user_name_store w = Returns name ->
  day_analysis_body w (e :: events) tomorrow_events_data
  = (meeting_parts <- create_meeting_summary name (e :: events) ;;
     with_tomorrow name tomorrow_events_data
       (day_sentence "You start your day with " "You start your day with "
          meeting_parts
          (get_time_greeting (current_hour w) ++ " " ++ name ++ "! ")
          (draws w))).
Proof.
  intros Hn. unfold day_analysis_body.
  cbn [nonempty negb andb]. rewrite Hn. cbn [bind].
  destruct (create_meeting_summary name (e :: events)); reflexivity.
Qed.

Lemma day_analysis_body_free_today
  (w : world) (name : string) (t : event) (tomorrow : list event) :
  user_name_store w = Returns name ->
  day_analysis_body w [] (Some (t :: tomorrow))
  = with_tomorrow name (Some (t :: tomorrow))
      ((get_time_greeting (current_hour w) ++ " " ++ name ++ "! ")
         ++ "You have a free day today.", draws w).
Proof.
  intros Hn. unfold day_analysis_body.
  cbn [nonempty negb andb truthy_opt]. rewrite Hn. reflexivity.
Qed.

Lemma with_tomorrow_prefix (name : string) (tomorrow : option (list event))
  (result : string) (g : rng) (s : string) :
  with_tomorrow name tomorrow (result, g) = Returns s ->
  exists r, s = result ++ r.
Proof.
  unfold with_tomorrow. destruct (truthy_opt tomorrow).
  - destruct (create_meeting_summary name _) as [parts|e]; cbn [bind];
      [|discriminate].
    destruct (nonempty parts); intros [= <-].
    + apply day_sentence_prefix.
    + eexists. reflexivity.
  - intros [= <-]. exists "". now rewrite append_empty_r.
Qed.

(** What the body returns opens with the greeting and the name. *)
Lemma day_analysis_body_opening
  (w : world) (events_data : list event)
  (tomorrow_events_data : option (list event)) (s : string) :
  day_analysis_body w events_data tomorrow_events_data = Returns s ->
  exists name rest,
    user_name_store w = Returns name
    /\ s = get_time_greeting (current_hour w) ++ " " ++ name ++ "!" ++ rest.
Proof.
  destruct (user_name_store w) as [name|e] eqn:Hn.
  - intros H. exists name.
    destruct events_data as [|ev events].
    + destruct tomorrow_events_data as [[|t tomorrow]|].
      * unfold day_analysis_body in H. cbn in H. rewrite Hn in H.
        cbn in H. injection H as <-. eexists. split; reflexivity.
      * rewrite (day_analysis_body_free_today _ _ _ _ Hn) in H.
        apply with_tomorrow_prefix in H as [r ->].
        exists (" You have a free day today." ++ r).
        split; [reflexivity | now reassociate].
      * unfold day_analysis_body in H. cbn in H. rewrite Hn in H.
        cbn in H. injection H as <-. eexists. split; reflexivity.
    + rewrite (day_analysis_body_with_events _ _ _ _ _ Hn) in H.
      destruct (create_meeting_summary name (ev :: events)) as [parts|e];
        cbn [bind] in H; [|discriminate].
      destruct (day_sentence_prefix "You start your day with "
                  "You start your day with " parts
                  (get_time_greeting (current_hour w) ++ " " ++ name ++ "! ")
                  (draws w)) as [r1 E1].
      destruct (day_sentence _ _ parts _ _) as [result g]. cbn [fst] in E1.
      apply with_tomorrow_prefix in H as [r2 ->]. subst result.
      exists (" " ++ r1 ++ r2). split; [reflexivity | now reassociate].
  - unfold day_analysis_body. rewrite Hn.
    destruct (_ && _); cbn [bind]; discriminate.
Qed.

End Briefing.

(** X11. What [get_ai_day_analysis] returns is never the empty string: the
    tests [if ai_analysis] of [main] (lines 717 and 720) always find a text
    to read or to print. *)
Theorem get_ai_day_analysis_not_empty
  (w : world) (events_summary : string) (events_data : list event)
  (tomorrow_events_data : option (list event)) :
  exists c rest,
    get_ai_day_analysis w events_summary events_data tomorrow_events_data
    = Returns (String c rest).
Proof.
  unfold get_ai_day_analysis, try_except.
  destruct (day_analysis_body w events_data tomorrow_events_data)
    as [s|e] eqn:E.
  - apply day_analysis_body_opening in E as (name & rest & _ & ->).
    destruct (greeting_initial (current_hour w)) as (g' & -> & _).
    eexists _, _. reflexivity.
  - eexists _, _. reflexivity.
Qed.

(** X12. A briefing that is not the apology opens with the greeting of the
    hour, a space, the user name and "!", whatever the events are. *)
Theorem get_ai_day_analysis_opening
  (w : world) (events_summary : string) (events_data : list event)
  (tomorrow_events_data : option (list event)) (s : string) :
  day_analysis_body w events_data tomorrow_events_data = Returns s ->
  get_ai_day_analysis w events_summary events_data tomorrow_events_data
  = Returns s
  /\ exists name rest,
       user_name_store w = Returns name
       /\ s = get_time_greeting (current_hour w) ++ " " ++ name ++ "!" ++ rest.
Proof.
  intros H. split.
  - unfold get_ai_day_analysis. now rewrite H.
  - now apply day_analysis_body_opening in H.
Qed.

Lemma get_ai_day_analysis_opening_witness :
  exists name rest,
    Returns (A := string) "Sam" = Returns name
    /\ "Good morning Sam! You have a free day today. Tomorrow you have Standup from 9 to 9 15 with Alice."
       = "Good morning" ++ " " ++ name ++ "!" ++ rest.
Proof.
  apply (get_ai_day_analysis_opening (sam_at_eight (fun _ => 0)) ""
           [] (Some [standup])).
  reflexivity.
Defined.

(** X13. With events today, the data for tomorrow only adds to the
    briefing: the briefing for both days is the briefing for today alone
    followed by nothing when tomorrow has no event, and by a sentence that
    starts " Tomorrow you " when it has. *)
Theorem get_ai_day_analysis_appends_tomorrow
  (w : world) (e : event) (events : list event) (tomorrow : list event)
  (both : string) :
  day_analysis_body w (e :: events) (Some tomorrow) = Returns both ->
  exists today added,
    day_analysis_body w (e :: events) None = Returns today
    /\ both = today ++ added
    /\ (tomorrow = [] -> added = "")
    /\ (tomorrow <> [] -> exists r, added = " Tomorrow you " ++ r).
Proof.
  intros H.
  destruct (day_analysis_body_opening _ _ _ _ H) as (name & _ & Hn & _).
  rewrite (day_analysis_body_with_events _ _ _ _ (Some tomorrow) Hn) in H.
  rewrite (day_analysis_body_with_events _ _ _ _ None Hn).
  destruct (create_meeting_summary name (e :: events)) as [parts|x];
    cbn [bind] in *; [|discriminate H].
  destruct (day_sentence _ _ parts _ _) as [result g].
  exists result. unfold with_tomorrow in *. cbn [truthy_opt] in *.
  destruct tomorrow as [|t tomorrow]; cbn [nonempty] in H.
  - injection H as <-. exists "". rewrite append_empty_r.
    repeat split; auto. congruence.
  - destruct (create_meeting_summary name (t :: tomorrow)) as [tparts|x] eqn:Et;
      cbn [bind] in H; [|discriminate H].
    apply create_meeting_summary_length in Et.
    destruct tparts as [|tfirst trest]; [discriminate Et|].
    cbn [nonempty] in H. injection H as <-.
    destruct (day_sentence_opening " Tomorrow you have "
                " Tomorrow you start with " tfirst trest result g) as [r E].
    rewrite E. eexists. split; [reflexivity|]. split; [reflexivity|].
    split; [discriminate|]. intros _.
    destruct trest; eexists; reflexivity.
Qed.

Lemma get_ai_day_analysis_appends_tomorrow_witness :
  exists today added,
    day_analysis_body (sam_at_eight (fun _ => 0)) [standup] None
    = Returns today
    /\ "Good morning Sam! You start your day with Standup from 9 to 9 15 with Alice. Tomorrow you have Review from 2 to 3 with Bob."
       = today ++ added
    /\ ([review] = [] -> added = "")
    /\ ([review] <> [] -> exists r, added = " Tomorrow you " ++ r).
Proof.
  apply (get_ai_day_analysis_appends_tomorrow (sam_at_eight (fun _ => 0))
           standup [] [review]).
  reflexivity.
Defined.

(** X14. A field missing from an event of either day costs the whole
    briefing: when today's events lack a field the apology names it, and when
    today's phrases are built but tomorrow's events lack a field, the apology
    for tomorrow's field is all that is returned. *)
Theorem get_ai_day_analysis_missing_field
  (w : world) (events_summary name : string)
  (events_data tomorrow : list event) (e : exn) :
  user_name_store w = Returns name ->
  (create_meeting_summary name events_data = Raises e ->
   get_ai_day_analysis w events_summary events_data (Some tomorrow)
   = Returns (apology e))
  /\ ((exists parts, create_meeting_summary name events_data = Returns parts) ->
      create_meeting_summary name tomorrow = Raises e ->
      get_ai_day_analysis w events_summary events_data (Some tomorrow)
      = Returns (apology e)).
Proof.
  intros Hn. unfold get_ai_day_analysis. split.
  - intros Ht. destruct events_data as [|ev events]; [discriminate Ht|].
    rewrite (day_analysis_body_with_events _ _ _ _ _ Hn), Ht. reflexivity.
  - intros [parts Ht] Hm.
    destruct tomorrow as [|t tomorrow]; [discriminate Hm|].
    destruct events_data as [|ev events].
    + rewrite (day_analysis_body_free_today _ _ _ _ Hn).
      unfold with_tomorrow. cbn [truthy_opt nonempty]. now rewrite Hm.
    + rewrite (day_analysis_body_with_events _ _ _ _ _ Hn), Ht. cbn [bind].
      destruct (day_sentence _ _ parts _ _) as [result g].
      unfold with_tomorrow. cbn [truthy_opt nonempty]. now rewrite Hm.
Qed.

Lemma get_ai_day_analysis_missing_field_witness :
  get_ai_day_analysis (sam_at_eight (fun _ => 0)) "" [standup]
    (Some [[("subject", "Review"); ("organizer", "Bob")]])
  = Returns "Sorry, I couldn't create your day summary due to an error: 'start_time'".
Proof.
  apply (get_ai_day_analysis_missing_field (sam_at_eight (fun _ => 0)) ""
           "Sam" [standup] [[("subject", "Review"); ("organizer", "Bob")]]
           (KeyError "start_time") eq_refl).
  - now exists ["Standup from 9 to 9 15 with Alice"].
  - reflexivity.
Defined.

(** * The name store and the calendar

    [get_user_name], [get_today_calendar_events], [get_tomorrow_calendar_events]
    and the calls of [main].  What lies outside the program is passed in: the
    name file and the lines of the standard input, and the Outlook objects
    with what each of their attributes gives when it is read, a value or a
    failure.  Printing is left out. *)

From Stdlib Require Import NArith.

(** ** [get_user_name] (lines 170-195) *)

(** [s.strip()] *)
Definition strip_str (s : string) : string := text (strip (chars s)).

Record name_store : Type := {
  name_file : option string;  (* the text of user_name.txt, when it exists *)
  can_read : bool;            (* opening and reading the file succeeds *)
  can_write : bool;           (* opening and writing the file succeeds *)
  stdin : list string         (* the lines [input()] will deliver *)
}.

(** The [try] block of lines 174-181: the name it returns, if it returns. *)
Definition stored_name (st : name_store) : option string :=
  match name_file st with
  | Some content =>
      if can_read st then
        let name := strip_str content in
        if truthy name then Some name else None
      else None
  | None => None
  end.

(** The function with the store it leaves; [input()] raises [EOFError] when
    the input has no line left, and a write that fails leaves the file as
    it was. *)
Definition get_user_name (st : name_store) : outcome string * name_store :=
  match stored_name st with
  | Some name => (Returns name, st)
  | None =>
      match stdin st with
      | [] => (Raises (EOFError "EOF when reading a line"), st)
      | line :: rest =>
          let name := strip_str line in
          (Returns name,
           {| name_file :=
                if truthy name && can_write st then Some name
                else name_file st;
              can_read := can_read st;
              can_write := can_write st;
              stdin := rest |})
      end
  end.

(** ** Outlook objects *)

(** What reading an attribute or calling a method gives: a value, or an
    exception. *)
Inductive got (A : Type) : Type :=
| Got (a : A)
| Fault.
Arguments Got {A} a.
Arguments Fault {A}.

(** A date and a time of day, to the second; the date is a day number. *)
Record datetime : Type := {
  on_day : nat;
  at_hour : nat;
  at_minute : nat;
  at_second : nat
}.

(** An appointment item. A text attribute is a [str] or [None]. The field
    [organizer_object] is what lines 312-314 leave in [organizer_name]:
    the name of the object [GetOrganizer()] returns, [None] for an object
    that is falsy. *)
Record appointment : Type := {
  Subject : got (option string);
  Start : got datetime;
  End_ : got datetime;
  Location : got (option string);
  Organizer : got (option string);
  organizer_object : got (option string);
  IsRecurring : got bool;
  AllDayEvent : got bool;
  Categories : got (option string);
  Importance : got nat;
  ReminderSet : got bool
}.

(** The calendar folder once it is reached: its items, sorted by start with
    recurrences included, and what [Restrict] gives for the day asked. *)
Record calendar : Type := {
  Items : list appointment;
  Restrict : got (list appointment)
}.

(** Truth value of a text attribute. *)
Definition truthy_text (t : option string) : bool :=
  match t with
  | Some s => truthy s
  | None => false
  end.

(** [str(x) if x else default] on an attribute already read. *)
Definition text_or (default : string) (t : option string) : string :=
  match t with
  | Some s => if truthy s then s else default
  | None => default
  end.

(** ['birthday' in subject or 'holiday' in subject or 'anniversary' in
    subject], on the subject in lower case. *)
Definition is_excluded (subject : string) : bool :=
  contains "birthday" subject || contains "holiday" subject
  || contains "anniversary" subject.

(** The loop over the restricted items (lines 241-251 and 431-441): the
    items kept, or the exception that ends the loop. *)
Fixpoint filter_restricted (day : nat) (l : list appointment)
  : got (list appointment) :=
  match l with
  | [] => Got []
  | a :: rest =>
      match Subject a with
      | Got (Some s) =>
          if is_excluded (lower s) then filter_restricted day rest
          else
            match Start a with
            | Got d =>
                if negb (on_day d =? day)%nat then filter_restricted day rest
                else
                  match filter_restricted day rest with
                  | Got kept => Got (a :: kept)
                  | Fault => Fault
                  end
            | Fault => Fault
            end
      | _ => Fault
      end
  end.

(** The manual search (lines 257-277), with the count of the items seen
    before. *)
Fixpoint manual_search (day : nat) (count : nat) (l : list appointment)
  : list appointment :=
  match l with
  | [] => []
  | a :: rest =>
      let count := S count in
      if (100 <? count)%nat then []
      else
        match Start a with
        | Got d =>
            if (on_day d =? day)%nat then
              match Subject a with
              | Got (Some s) =>
                  if is_excluded (lower s) then manual_search day count rest
                  else a :: manual_search day count rest
              | _ => manual_search day count rest
              end
            else manual_search day count rest
        | Fault => manual_search day count rest
        end
  end.

(** [strftime('%I:%M %p')] *)
Definition strftime_I_M_p (d : datetime) : string :=
  let h := at_hour d mod 12 in
  clock_text (if (h =? 0)%nat then 12 else h) (at_minute d)
    (if (at_hour d <? 12)%nat then AM else PM).

(** [s.split(sep)[0]]: the text in front of the first [sep]. *)
Fixpoint before_first (sep s : string) : string :=
  if prefix sep s then ""
  else match s with
       | EmptyString => ""
       | String c rest => String c (before_first sep rest)
       end.

(** Lines 316-317 *)
Definition exchange_name (organizer_name : string) : string :=
  if contains "/o=ExchangeLabs/" organizer_name then
    if contains "cn=Recipients/cn=" organizer_name
    then before_first "cn=Recipients/cn=" organizer_name
    else organizer_name
  else organizer_name.

(** Lines 306-319 and 472-483: the organizer's name. *)
Definition organizer_name_of (a : appointment) : string :=
  match Organizer a with
  | Got t => text_or "" t
  | Fault =>
      match organizer_object a with
      | Got (Some name) => exchange_name name
      | Got None => ""
      | Fault => ""
      end
  end.

(** Lines 301-303 and 467-469 *)
Definition location_of (a : appointment) : string :=
  match Location a with
  | Got t => text_or "" t
  | Fault => ""
  end.

(** The seconds from day 0 to a date and time. *)
Definition seconds_since (d : datetime) : N :=
  (N.of_nat (on_day d) * 86400 + N.of_nat (at_hour d) * 3600
   + N.of_nat (at_minute d) * 60 + N.of_nat (at_second d))%N.

(** [(finish - start).seconds]: a [timedelta] keeps its whole days apart, so
    that its seconds are those of the difference modulo one day, from 0 to
    86399 also when [finish] is the earlier one. *)
Definition timedelta_seconds (start finish : datetime) : N :=
  let s := seconds_since start in
  let f := seconds_since finish in
  (if s <=? f then (f - s) mod 86400
   else (86400 - (s - f) mod 86400) mod 86400)%N.

(** Lines 351-356, on [duration.seconds] *)
Definition duration_text (seconds : N) : string :=
  let hours := (seconds / 3600)%N in
  let minutes := ((seconds mod 3600) / 60)%N in
  if (0 <? hours)%N
  then str (N.to_nat hours) ++ "h " ++ str (N.to_nat minutes) ++ "m"
  else str (N.to_nat minutes) ++ "m".

(** Lines 362-377: the meeting type and whether the meeting is online. *)
Definition meeting_medium (location_field : string) : string * bool :=
  let location := if truthy location_field then lower location_field else "" in
  if contains "teams" location then ("Microsoft Teams", true)
  else if contains "zoom" location then ("Zoom", true)
  else if contains "webex" location then ("WebEx", true)
  else if contains "http" location then ("Online Meeting", true)
  else ("In-person", false).

(** The values of the dict of an event of today. *)
Inductive pyvalue : Type :=
| PStr (s : string)
| PBool (b : bool)
| PInt (n : nat).

Definition event_info := list (string * pyvalue).

Definition got_or {A : Type} (default : A) (x : got A) : A :=
  match x with
  | Got a => a
  | Fault => default
  end.

(** Lines 286-387: the dict for one appointment of today, or nothing when
    the subject, the start or the end cannot be read. *)
Definition today_info (a : appointment) : option event_info :=
  match Subject a, Start a, End_ a with
  | Got subject, Got start, Got finish =>
      let location := location_of a in
      let medium := meeting_medium location in
      Some [("subject", PStr (text_or "No Subject" subject));
            ("start_time", PStr (strftime_I_M_p start));
            ("end_time", PStr (strftime_I_M_p finish));
            ("location", PStr location);
            ("organizer", PStr (organizer_name_of a));
            ("is_recurring", PBool (got_or false (IsRecurring a)));
            ("all_day", PBool (got_or false (AllDayEvent a)));
            ("categories",
             PStr (match Categories a with
                   | Got t => text_or "" t
                   | Fault => ""
                   end));
            ("importance", PInt (got_or 1 (Importance a)));
            ("reminder_set", PBool (got_or false (ReminderSet a)));
            ("duration", PStr (duration_text (timedelta_seconds start finish)));
            ("meeting_type", PStr (fst medium));
            ("is_online", PBool (snd medium))]
  | _, _, _ => None
  end.

(** Lines 453-488: the dict for one appointment of tomorrow. *)
Definition tomorrow_info (a : appointment) : option event :=
  match Subject a, Start a, End_ a with
  | Got subject, Got start, Got finish =>
      Some [("subject", text_or "No Subject" subject);
            ("start_time", strftime_I_M_p start);
            ("end_time", strftime_I_M_p finish);
            ("location", location_of a);
            ("organizer", organizer_name_of a)]
  | _, _, _ => None
  end.

(** The list built by a loop that skips what raises. *)
Fixpoint collect {A B : Type} (f : A -> option B) (l : list A) : list B :=
  match l with
  | [] => []
  | a :: rest =>
      match f a with
      | Some b => b :: collect f rest
      | None => collect f rest
      end
  end.

(** The appointments of lines 234-282 for today: those of the restricted
    items, or, when [Restrict] or the loop over its items raises, those of
    the manual search. *)
Definition today_appointments (today : nat) (c : calendar)
  : list appointment :=
  match Restrict c with
  | Got filtered =>
      match filter_restricted today filtered with
      | Got events => events
      | Fault => manual_search today 0 (Items c)
      end
  | Fault => manual_search today 0 (Items c)
  end.

(** [win32com] is the imported module or [None]; [mapi] is the calendar
    folder, or the exception met on the way to it; [today] is the date. *)
Definition get_today_calendar_events (win32com : bool) (mapi : got calendar)
  (today : nat) : list event_info :=
  if negb win32com then []
  else
    match mapi with
    | Fault => []
    | Got c => collect today_info (today_appointments today c)
    end.

(** Lines 391-494; [Restrict] is the one for tomorrow's date. *)
Definition get_tomorrow_calendar_events (win32com : bool)
  (mapi : got calendar) (today : nat) : list event :=
  if negb win32com then []
  else
    match mapi with
    | Fault => []
    | Got c =>
        match Restrict c with
        | Got filtered =>
            match filter_restricted (today + 1) filtered with
            | Got events => collect tomorrow_info events
            | Fault => []
            end
        | Fault => []
        end
    end.

(** The entries of a dict of today that the summary can read. *)
Definition as_event (info : event_info) : event :=
  flat_map (fun kv => match snd kv with
                      | PStr s => [(fst kv, s)]
                      | _ => []
                      end) info.

(** ** [main] (lines 689-722) *)

Definition INCLUDE_TOMORROW : bool := true.

(** The briefing [main] hands to the display and to the speech engine: the
    name is asked for first (line 700), the calendars are read, and
    [get_ai_day_analysis] asks the name store again. [today_calendar] and
    [tomorrow_calendar] are what Outlook gives to the two functions. *)
Definition main (st : name_store) (current_hour : nat) (g : rng)
  (win32com : bool) (today_calendar tomorrow_calendar : got calendar)
  (today : nat) : outcome string :=
  let (first_answer, st1) := get_user_name st in
  user_name <- first_answer ;;
  let events_data := get_today_calendar_events win32com today_calendar today in
  let tomorrow_events_data :=
    if INCLUDE_TOMORROW
    then Some (get_tomorrow_calendar_events win32com tomorrow_calendar today)
    else None in
  get_ai_day_analysis
    {| current_hour := current_hour;
       user_name_store := fst (get_user_name st1);
       draws := g |}
    "" (map as_event events_data) tomorrow_events_data.

(** ** [get_user_name]: the name and the file *)

Section NameStore.
Local Open Scope list_scope.

Lemma strip_fixed (l : list ascii) : strip (strip l) = strip l.
Proof.
  destruct (strip_tight l) as [Hh Ht]. unfold strip at 1.
  rewrite (lstrip_id _ Hh). now apply rstrip_id.
Qed.

Lemma strip_str_fixed (s : string) : strip_str (strip_str s) = strip_str s.
Proof. unfold strip_str. now rewrite chars_text, strip_fixed. Qed.

Lemma stored_name_stripped (st : name_store) (name : string) :
  stored_name st = Some name -> strip_str name = name /\ name <> "".
Proof.
  unfold stored_name. destruct (name_file st) as [content|]; [|discriminate].
  destruct (can_read st); [|discriminate].
  destruct (truthy (strip_str content)) eqn:Et; [|discriminate].
  intros [= <-]. split; [apply strip_str_fixed | now apply truthy_iff].
Qed.

Lemma get_user_name_stored (st : name_store) (name : string) :
  stored_name st = Some name -> get_user_name st = (Returns name, st).
Proof. unfold get_user_name. now intros ->. Qed.

End NameStore.

(** X15. The name [get_user_name] returns has no whitespace at either end.
    A name read from the file is not empty and leaves the input untouched;
    an answer that is blank is returned as the empty name and is not
    written to the file. *)
Theorem get_user_name_trimmed
  (st st1 : name_store) (name : string) :
  get_user_name st = (Returns name, st1) ->
  strip_str name = name
  /\ (stored_name st <> None -> name <> "" /\ st1 = st)
  /\ (name = "" -> name_file st1 = name_file st).
Proof.
  unfold get_user_name.
  destruct (stored_name st) as [stored|] eqn:Es.
  - intros [= <- <-]. destruct (stored_name_stripped _ _ Es) as [H1 H2].
    repeat split; auto.
  - destruct (stdin st) as [|line rest]; [discriminate|].
    intros [= <- <-]. split; [apply strip_str_fixed|].
    split; [congruence|]. cbn [name_file]. now intros ->.
Qed.

Lemma get_user_name_trimmed_witness : strip_str "Sam" = "Sam".
Proof.
  apply (get_user_name_trimmed
           {| name_file := None; can_read := true;
              can_write := true; stdin := ["  Sam "] |}
           {| name_file := Some "Sam"; can_read := true;
              can_write := true; stdin := [] |} "Sam").
  reflexivity.
Defined.

(** X16. A name is asked for once: when [get_user_name] has returned a name
    that is not empty, and the file can be written and read, the next call
    returns the same name from the file and reads no line of the input. *)
Theorem get_user_name_remembers
  (st st1 : name_store) (name : string) :
  get_user_name st = (Returns name, st1) ->
  name <> "" -> can_read st = true -> can_write st = true ->
  stored_name st1 = Some name
  /\ get_user_name st1 = (Returns name, st1).
Proof.
  intros H Hne Hr Hw.
  assert (Hs : stored_name st1 = Some name).
  { unfold get_user_name in H.
    destruct (stored_name st) as [stored|] eqn:Es.
    - now injection H as <- <-.
    - destruct (stdin st) as [|line rest]; [discriminate|].
      injection H as <- <-.
      apply (proj2 (truthy_iff _)) in Hne.
      unfold stored_name. cbn [name_file can_read].
      rewrite Hne, Hw, Hr. cbn [andb].
      now rewrite strip_str_fixed, Hne. }
  split; [exact Hs | now apply get_user_name_stored].
Qed.

Lemma get_user_name_remembers_witness :
  stored_name {| name_file := Some "Sam"; can_read := true;
                 can_write := true; stdin := ["Alex"] |} = Some "Sam"
  /\ get_user_name {| name_file := Some "Sam"; can_read := true;
                      can_write := true; stdin := ["Alex"] |}
     = (Returns "Sam",
        {| name_file := Some "Sam"; can_read := true;
           can_write := true; stdin := ["Alex"] |}).
Proof.
  apply (get_user_name_remembers
           {| name_file := None; can_read := true;
              can_write := true; stdin := [" Sam"; "Alex"] |}
           {| name_file := Some "Sam"; can_read := true;
              can_write := true; stdin := ["Alex"] |} "Sam");
    [reflexivity | discriminate | reflexivity | reflexivity].
Defined.

(** ** The calendar: which events are reported *)

(** An appointment the loops keep: its subject is read and holds none of
    the three words in any letter case, and it starts on the day asked. *)
Definition reportable (day : nat) (a : appointment) : Prop :=
  exists s d,
    Subject a = Got (Some s) /\ is_excluded (lower s) = false
    /\ Start a = Got d /\ on_day d = day.

(** A subject that is not empty and holds none of the three words. *)
Definition reported_subject (e : event) : Prop :=
  exists subject,
    getitem e "subject" = Returns subject
    /\ subject <> "" /\ is_excluded (lower subject) = false.

Section Calendar.
Local Open Scope list_scope.

Lemma collect_In {A B : Type} (f : A -> option B) (l : list A) (b : B) :
  In b (collect f l) <-> exists a, In a l /\ f a = Some b.
Proof.
  induction l as [|a l IH]; cbn [collect].
  - split; [intros [] | intros (a & [] & _)].
  - destruct (f a) as [b'|] eqn:E.
    + cbn [In]. rewrite IH. split.
      * intros [<-|(a' & Ha & Hf)];
          [exists a; split; [now left | exact E]
          | exists a'; split; [now right | exact Hf]].
      * intros (a' & [<-|Ha] & Hf); [left; congruence|].
        right. exists a'. now split.
    + rewrite IH. split.
      * intros (a' & Ha & Hf). exists a'. split; [now right | exact Hf].
      * intros (a' & [<-|Ha] & Hf); [congruence|]. exists a'. now split.
Qed.

Lemma filter_restricted_kept (day : nat) (l kept : list appointment) :
  filter_restricted day l = Got kept ->
  forall a, In a kept -> In a l /\ reportable day a.
Proof.
  revert kept. induction l as [|x l IH]; intros kept; cbn [filter_restricted].
  - intros [= <-] a [].
  - destruct (Subject x) as [[s|]|] eqn:Es; try discriminate.
    destruct (is_excluded (lower s)) eqn:Ex.
    { intros H a Ha. destruct (IH _ H a Ha). split; [now right | assumption]. }
    destruct (Start x) as [d|] eqn:Ed; [|discriminate].
    destruct (on_day d =? day)%nat eqn:Eday; cbn [negb].
    + destruct (filter_restricted day l) as [kept'|]; [|discriminate].
      intros [= <-] a [<-|Ha].
      * split; [now left|]. exists s, d. apply Nat.eqb_eq in Eday.
        repeat split; assumption.
      * destruct (IH _ eq_refl a Ha). split; [now right | assumption].
    + intros H a Ha. destruct (IH _ H a Ha). split; [now right | assumption].
Qed.

Lemma manual_search_kept (day : nat) (l : list appointment) :
  forall count a,
    In a (manual_search day count l) ->
    In a (firstn (100 - count) l) /\ reportable day a.
Proof.
  induction l as [|x l IH]; intros count a; cbn [manual_search]; [intros []|].
  destruct (100 <? S count)%nat eqn:El; [intros []|].
  apply Nat.ltb_ge in El.
  replace (100 - count) with (S (100 - S count)) by lia. cbn [firstn].
  assert (Hrest : In a (manual_search day (S count) l) ->
                  In a (x :: firstn (100 - S count) l) /\ reportable day a).
  { intros H. destruct (IH _ _ H). split; [now right | assumption]. }
  destruct (Start x) as [d|] eqn:Ed; [|exact Hrest].
  destruct (on_day d =? day)%nat eqn:Eday; [|exact Hrest].
  destruct (Subject x) as [[s|]|] eqn:Es; try exact Hrest.
  destruct (is_excluded (lower s)) eqn:Ex; [exact Hrest|].
  intros [<-|H]; [|now apply Hrest].
  split; [now left|]. exists s, d. apply Nat.eqb_eq in Eday.
        repeat split; assumption.
Qed.

Lemma manual_search_firstn (day : nat) (l : list appointment) :
  forall count,
    manual_search day count l
    = manual_search day count (firstn (100 - count) l).
Proof.
  induction l as [|x l IH]; intros count.
  - now rewrite firstn_nil.
  - cbn [manual_search]. destruct (100 <? S count)%nat eqn:El.
    + apply Nat.ltb_lt in El.
      replace (100 - count) with 0 by lia. reflexivity.
    + pose proof (proj1 (Nat.ltb_ge _ _) El) as Hle.
      replace (100 - count) with (S (100 - S count)) by lia.
      cbn [firstn manual_search]. rewrite El, <- IH. reflexivity.
Qed.

Lemma manual_search_length (day : nat) (l : list appointment) :
  forall count, length (manual_search day count l) <= 100 - count.
Proof.
  induction l as [|x l IH]; intros count; cbn [manual_search];
    [cbn [length]; lia|].
  destruct (100 <? S count)%nat eqn:El; [cbn [length]; lia|].
  apply Nat.ltb_ge in El. specialize (IH (S count)).
  destruct (Start x) as [d|]; [|lia].
  destruct (on_day d =? day)%nat; [|lia].
  destruct (Subject x) as [[s|]|]; try lia.
  destruct (is_excluded (lower s)); cbn [length]; lia.
Qed.

Lemma collect_length {A B : Type} (f : A -> option B) (l : list A) :
  length (collect f l) <= length l.
Proof.
  induction l as [|a l IH]; cbn [collect length]; [lia|].
  destruct (f a); cbn [length]; lia.
Qed.

Lemma today_appointments_reportable (today : nat) (c : calendar) :
  forall a, In a (today_appointments today c) -> reportable today a.
Proof.
  intros a. unfold today_appointments.
  destruct (Restrict c) as [filtered|].
  - destruct (filter_restricted today filtered) as [events|] eqn:E.
    + intros H. now apply (filter_restricted_kept _ _ _ E).
    + intros H. now apply manual_search_kept in H.
  - intros H. now apply manual_search_kept in H.
Qed.

Lemma text_or_subject (s : string) :
  is_excluded (lower s) = false ->
  text_or "No Subject" (Some s) <> ""
  /\ is_excluded (lower (text_or "No Subject" (Some s))) = false.
Proof.
  intros H. cbn [text_or]. destruct (truthy s) eqn:Et.
  - split; [now apply truthy_iff | exact H].
  - split; [discriminate | reflexivity].
Qed.

Lemma today_info_subject (day : nat) (a : appointment) (info : event_info) :
  reportable day a -> today_info a = Some info ->
  reported_subject (as_event info).
Proof.
  intros (s & d & Hs & Hx & Hd & _). unfold today_info. rewrite Hs, Hd.
  destruct (End_ a) as [finish|]; [|discriminate]. intros [= <-].
  exists (text_or "No Subject" (Some s)).
  split; [reflexivity | now apply text_or_subject].
Qed.

Lemma tomorrow_info_subject (day : nat) (a : appointment) (e : event) :
  reportable day a -> tomorrow_info a = Some e -> reported_subject e.
Proof.
  intros (s & d & Hs & Hx & Hd & _). unfold tomorrow_info. rewrite Hs, Hd.
  destruct (End_ a) as [finish|]; [|discriminate]. intros [= <-].
  exists (text_or "No Subject" (Some s)).
  split; [reflexivity | now apply text_or_subject].
Qed.

End Calendar.

(** X17. No birthday, holiday or anniversary is reported, in any letter
    case, and no event of another day: every appointment the loops for today
    keep starts today and has a subject without the three words, and every
    dict the two calendar functions return has a subject that is not empty
    and holds none of the three words. *)
Theorem calendar_events_reportable
  (win32com : bool) (mapi : got calendar) (today : nat) :
  (forall c a, In a (today_appointments today c) -> reportable today a)
  /\ (forall info,
        In info (get_today_calendar_events win32com mapi today) ->
        reported_subject (as_event info))
  /\ (forall e,
        In e (get_tomorrow_calendar_events win32com mapi today) ->
        reported_subject e).
Proof.
  split; [intros c; apply today_appointments_reportable|]. split.
  - intros info. unfold get_today_calendar_events.
    destruct win32com; [|intros []]. destruct mapi as [c|]; [|intros []].
    cbn [negb]. rewrite collect_In. intros (a & Ha & Hi).
    apply today_appointments_reportable in Ha.
    now apply (today_info_subject today a).
  - intros e. unfold get_tomorrow_calendar_events.
    destruct win32com; [|intros []]. destruct mapi as [c|]; [|intros []].
    cbn [negb]. destruct (Restrict c) as [filtered|]; [|intros []].
    destruct (filter_restricted (today + 1) filtered) as [events|] eqn:E;
      [|intros []].
    rewrite collect_In. intros (a & Ha & Hi).
    apply (filter_restricted_kept _ _ _ E) in Ha as [_ Ha].
    now apply (tomorrow_info_subject (today + 1) a).
Qed.

(** The manual search is what decides: [Restrict] raises, or the loop over
    its items does. *)
Definition falls_back (today : nat) (c : calendar) : Prop :=
  Restrict c = Fault
  \/ exists filtered,
       Restrict c = Got filtered /\ filter_restricted today filtered = Fault.

(** X18. When [Restrict] or the loop over its items raises, today's events
    are searched by hand among the first 100 items only: the items behind
    them are not read, and at most 100 events are returned. *)
Theorem get_today_calendar_events_manual_search
  (c : calendar) (today : nat) :
  falls_back today c ->
  get_today_calendar_events true (Got c) today
  = get_today_calendar_events true
      (Got {| Items := firstn 100 (Items c); Restrict := Fault |}) today
  /\ length (get_today_calendar_events true (Got c) today) <= 100.
Proof.
  intros Hf.
  assert (E : today_appointments today c = manual_search today 0 (Items c)).
  { unfold today_appointments.
    destruct Hf as [-> | (filtered & -> & ->)]; reflexivity. }
  unfold get_today_calendar_events. cbn [negb]. rewrite E.
  unfold today_appointments. cbn [Restrict Items]. split.
  - now rewrite (manual_search_firstn today (Items c) 0).
  - etransitivity; [apply collect_length|].
    apply (manual_search_length today (Items c) 0).
Qed.

(** An appointment at nine on the day [day], with the subject [subject]. *)
Definition at_nine (day : nat) (subject : string) : appointment :=
  {| Subject := Got (Some subject);
     Start := Got {| on_day := day; at_hour := 9; at_minute := 0;
                     at_second := 0 |};
     End_ := Got {| on_day := day; at_hour := 9; at_minute := 30;
                    at_second := 0 |};
     Location := Got (Some "");
     Organizer := Got (Some "Alice");
     organizer_object := Fault;
     IsRecurring := Got false;
     AllDayEvent := Got false;
     Categories := Got (Some "");
     Importance := Got 1;
     ReminderSet := Got false |}.

Lemma get_today_calendar_events_manual_search_witness :
  length (get_today_calendar_events true
            (Got {| Items := repeat (at_nine 7 "Standup") 120;
                    Restrict := Fault |}) 7) <= 100.
Proof.
  apply (get_today_calendar_events_manual_search
           {| Items := repeat (at_nine 7 "Standup") 120; Restrict := Fault |} 7).
  now left.
Defined.

(** ** The calendar and the briefing *)

Section Composition.
Local Open Scope list_scope.

Lemma today_info_complete (a : appointment) (info : event_info) :
  today_info a = Some info -> complete (as_event info).
Proof.
  unfold today_info.
  destruct (Subject a) as [subject|], (Start a) as [start|],
    (End_ a) as [finish|]; try discriminate.
  intros [= <-]. repeat split; eexists; reflexivity.
Qed.

Lemma tomorrow_info_complete (a : appointment) (e : event) :
  tomorrow_info a = Some e -> complete e.
Proof.
  unfold tomorrow_info.
  destruct (Subject a) as [subject|], (Start a) as [start|],
    (End_ a) as [finish|]; try discriminate.
  intros [= <-]. repeat split; eexists; reflexivity.
Qed.

Lemma today_events_complete
  (win32com : bool) (mapi : got calendar) (today : nat) :
  Forall complete
    (map as_event (get_today_calendar_events win32com mapi today)).
Proof.
  apply Forall_forall. intros e He.
  apply in_map_iff in He as (info & <- & Hi).
  unfold get_today_calendar_events in Hi.
  destruct win32com; [|destruct Hi]. destruct mapi as [c|]; [|destruct Hi].
  cbn [negb] in Hi. apply collect_In in Hi as (a & _ & Ha).
  now apply (today_info_complete a).
Qed.

Lemma tomorrow_events_complete
  (win32com : bool) (mapi : got calendar) (today : nat) :
  Forall complete (get_tomorrow_calendar_events win32com mapi today).
Proof.
  apply Forall_forall. intros e He.
  unfold get_tomorrow_calendar_events in He.
  destruct win32com; [|destruct He]. destruct mapi as [c|]; [|destruct He].
  cbn [negb] in He. destruct (Restrict c) as [filtered|]; [|destruct He].
  destruct (filter_restricted (today + 1) filtered) as [events|];
    [|destruct He].
  apply collect_In in He as (a & _ & Ha).
  now apply (tomorrow_info_complete a).
Qed.

Lemma create_meeting_summary_returns (name : string) (events : list event) :
  Forall complete events ->
  exists parts,
    create_meeting_summary name events = Returns parts
    /\ length parts = length events.
Proof.
  intros Hc.
  destruct (create_meeting_summary_cases name events)
    as [(_ & parts & E & H2) | (Hn & _)]; [|contradiction].
  exists parts. split; [exact E|]. symmetry. now apply Forall2_length in H2.
Qed.

Lemma with_tomorrow_returns (name : string) (tomorrow : list event)
  (today : string * rng) :
  Forall complete tomorrow ->
  exists s, with_tomorrow name (Some tomorrow) today = Returns s.
Proof.
  intros Hc. unfold with_tomorrow. destruct today as [result g].
  destruct (truthy_opt (Some tomorrow)); [|eexists; reflexivity].
  destruct (create_meeting_summary_returns name tomorrow Hc) as (parts & -> & _).
  cbn [bind]. destruct (nonempty parts); eexists; reflexivity.
Qed.

Lemma day_analysis_body_returns
  (w : world) (name : string) (events_data tomorrow : list event) :
  user_name_store w = Returns name ->
  Forall complete events_data -> Forall complete tomorrow ->
  exists s, day_analysis_body w events_data (Some tomorrow) = Returns s.
Proof.
  intros Hn Hd Ht. destruct events_data as [|e events].
  - destruct tomorrow as [|t tomorrow].
    + unfold day_analysis_body. cbn [nonempty truthy_opt negb andb].
      rewrite Hn. eexists. reflexivity.
    + rewrite (day_analysis_body_free_today _ _ _ _ Hn).
      now apply with_tomorrow_returns.
  - rewrite (day_analysis_body_with_events _ _ _ _ _ Hn).
    destruct (create_meeting_summary_returns name _ Hd) as (parts & -> & _).
    cbn [bind]. now apply with_tomorrow_returns.
Qed.

Lemma get_user_name_cases (st : name_store) :
  (stored_name st = None /\ stdin st = []
   /\ get_user_name st = (Raises (EOFError "EOF when reading a line"), st))
  \/ (~ (stored_name st = None /\ stdin st = [])
      /\ exists answer st1, get_user_name st = (Returns answer, st1)).
Proof.
  unfold get_user_name. destruct (stored_name st) as [name|].
  - right. split; [intros [H _]; discriminate | eexists _, _; reflexivity].
  - destruct (stdin st) as [|line rest].
    + left. repeat split.
    + right. split; [intros [_ H]; discriminate | eexists _, _; reflexivity].
Qed.

Lemma main_after_answer
  (st st1 : name_store) (answer : string) (hour : nat) (g : rng)
  (win32com : bool) (today_calendar tomorrow_calendar : got calendar)
  (today : nat) :
  get_user_name st = (Returns answer, st1) ->
  main st hour g win32com today_calendar tomorrow_calendar today
  = get_ai_day_analysis
      {| current_hour := hour;
         user_name_store := fst (get_user_name st1);
         draws := g |} ""
      (map as_event (get_today_calendar_events win32com today_calendar today))
      (Some (get_tomorrow_calendar_events win32com tomorrow_calendar today)).
Proof. intros H. unfold main. now rewrite H. Qed.

End Composition.

(** X19. Every dict the two calendar functions return has the four fields
    the summary reads: on what they return, [create_meeting_summary] never
    raises and gives one phrase for each event. *)
Theorem calendar_events_summarised
  (win32com : bool) (today_calendar tomorrow_calendar : got calendar)
  (today : nat) (user_name : string) :
  let events_data :=
    get_today_calendar_events win32com today_calendar today in
  let tomorrow_events_data :=
    get_tomorrow_calendar_events win32com tomorrow_calendar today in
  exists parts tomorrow_parts,
    create_meeting_summary user_name (map as_event events_data)
    = Returns parts
    /\ length parts = length events_data
    /\ create_meeting_summary user_name tomorrow_events_data
       = Returns tomorrow_parts
    /\ length tomorrow_parts = length tomorrow_events_data.
Proof.
  intros events_data tomorrow_events_data.
  destruct (create_meeting_summary_returns user_name _
              (today_events_complete win32com today_calendar today))
    as (parts & E1 & L1).
  destruct (create_meeting_summary_returns user_name _
              (tomorrow_events_complete win32com tomorrow_calendar today))
    as (tparts & E2 & L2).
  exists parts, tparts. rewrite length_map in L1. now repeat split.
Qed.

(** X20. On its way to the briefing [main] lets one exception through: the
    [EOFError] of the first question for the name, asked when no name can be
    read from the file and the input has no line. In every other case it
    has a briefing that is not empty. *)
Theorem main_raises_only_at_first_question
  (st : name_store) (hour : nat) (g : rng) (win32com : bool)
  (today_calendar tomorrow_calendar : got calendar) (today : nat) :
  (stored_name st = None /\ stdin st = [] ->
   main st hour g win32com today_calendar tomorrow_calendar today
   = Raises (EOFError "EOF when reading a line"))
  /\ (~ (stored_name st = None /\ stdin st = []) ->
      exists c rest,
        main st hour g win32com today_calendar tomorrow_calendar today
        = Returns (String c rest)).
Proof.
  destruct (get_user_name_cases st)
    as [(Hs & Hi & E) | (Hn & answer & st1 & E)]; split.
  - intros _. unfold main. now rewrite E.
  - intros H. exfalso. apply H. now split.
  - intros H. contradiction.
  - intros _. rewrite (main_after_answer _ _ _ _ _ _ _ _ _ E).
    unfold get_ai_day_analysis, try_except.
    destruct (day_analysis_body _ _ _) as [s|e] eqn:Eb.
    + apply day_analysis_body_opening in Eb as (name & rest & _ & ->).
      cbn [current_hour].
      destruct (greeting_initial hour) as (g' & -> & _).
      eexists _, _. reflexivity.
    + eexists _, _. reflexivity.
Qed.

Lemma main_raises_only_at_first_question_witness :
  main {| name_file := None; can_read := true; can_write := true;
          stdin := [] |} 8 (fun _ => 0) true Fault Fault 7
  = Raises (EOFError "EOF when reading a line").
Proof.
  apply (main_raises_only_at_first_question
           {| name_file := None; can_read := true; can_write := true;
              stdin := [] |} 8 (fun _ => 0) true Fault Fault 7).
  now split.
Defined.

(** X21. When the first question gives a name that is not empty and the
    name file can be written and read, [main]'s briefing is never the
    apology: the name is read back from the file, every event of the
    calendar can be summarised, and the briefing opens with the greeting and
    that name. *)
Theorem main_briefing_with_name
  (st st1 : name_store) (name : string) (hour : nat) (g : rng)
  (win32com : bool) (today_calendar tomorrow_calendar : got calendar)
  (today : nat) :
  get_user_name st = (Returns name, st1) ->
  name <> "" -> can_read st = true -> can_write st = true ->
  exists rest,
    main st hour g win32com today_calendar tomorrow_calendar today
    = Returns (get_time_greeting hour ++ " " ++ name ++ "!" ++ rest)
    /\ day_analysis_body
         {| current_hour := hour; user_name_store := Returns name;
            draws := g |}
         (map as_event
            (get_today_calendar_events win32com today_calendar today))
         (Some (get_tomorrow_calendar_events win32com tomorrow_calendar today))
       = Returns (get_time_greeting hour ++ " " ++ name ++ "!" ++ rest).
Proof.
  intros H Hne Hr Hw.
  assert (Hs : get_user_name st1 = (Returns name, st1)).
  { unfold get_user_name in H.
    destruct (stored_name st) as [stored|] eqn:Es.
    - injection H as <- <-. now apply get_user_name_stored.
    - destruct (stdin st) as [|line rest]; [discriminate|].
      injection H as <- <-. apply get_user_name_stored.
      apply (proj2 (truthy_iff _)) in Hne.
      unfold stored_name. cbn [name_file can_read].
      rewrite Hne, Hw, Hr. cbn [andb].
      now rewrite strip_str_fixed, Hne. }
  rewrite (main_after_answer _ _ _ _ _ _ _ _ _ H), Hs. cbn [fst].
  set (w := {| current_hour := hour; user_name_store := Returns name;
               draws := g |}).
  destruct (day_analysis_body_returns w name _ _ eq_refl
              (today_events_complete win32com today_calendar today)
              (tomorrow_events_complete win32com tomorrow_calendar today))
    as [s E].
  destruct (day_analysis_body_opening _ _ _ _ E) as (name' & rest & Hn' & ->).
  injection Hn' as <-. exists rest.
  unfold get_ai_day_analysis. rewrite E. split; reflexivity.
Qed.

Lemma main_briefing_with_name_witness :
  exists rest,
    main {| name_file := None; can_read := true; can_write := true;
            stdin := ["Sam"] |} 8 (fun _ => 0) true Fault Fault 7
    = Returns ("Good morning" ++ " " ++ "Sam" ++ "!" ++ rest)
    /\ day_analysis_body (sam_at_eight (fun _ => 0))
         (map as_event (get_today_calendar_events true Fault 7))
         (Some (get_tomorrow_calendar_events true Fault 7))
       = Returns ("Good morning" ++ " " ++ "Sam" ++ "!" ++ rest).
Proof.
  apply (main_briefing_with_name
           {| name_file := None; can_read := true; can_write := true;
              stdin := ["Sam"] |}
           {| name_file := Some "Sam"; can_read := true; can_write := true;
              stdin := [] |} "Sam" 8 (fun _ => 0) true Fault Fault 7);
    [reflexivity | discriminate | reflexivity | reflexivity].
Defined.

(** ** Times and durations of calendar events *)

Definition spoken_day_agrees : bool :=
  forallb (fun hour =>
    forallb (fun minute =>
      (format_time_for_speech
         (clock_text (if (hour mod 12 =? 0)%nat then 12 else hour mod 12)
            minute (if (hour <? 12)%nat then AM else PM))
       =? spec_clock_time hour minute)%string)
      (seq 0 60))
    (seq 0 24).

Lemma spoken_day_checked : spoken_day_agrees = true.
Proof. vm_compute. reflexivity. Qed.

(** X22. The start and end of a calendar event are written by [strftime]
    and read back by [format_time_for_speech]: a time of day [hour:minute]
    of the 24-hour clock is spoken as "midnight" at 00:00, "noon" at 12:00,
    and otherwise as the hour, less 12 after noon, followed by the two-digit
    minute when that is not zero; the half hour after midnight is "0 30". *)
Theorem format_time_for_speech_of_strftime (d : datetime) :
  at_hour d <= 23 -> at_minute d <= 59 ->
  format_time_for_speech (strftime_I_M_p d)
  = spec_clock_time (at_hour d) (at_minute d).
Proof.
  intros Hh Hm. unfold strftime_I_M_p.
  pose proof spoken_day_checked as T. unfold spoken_day_agrees in T.
  rewrite forallb_forall in T.
  assert (Ih : In (at_hour d) (seq 0 24)) by (apply in_seq; lia).
  specialize (T _ Ih). rewrite forallb_forall in T.
  assert (Im : In (at_minute d) (seq 0 60)) by (apply in_seq; lia).
  specialize (T _ Im). now apply String.eqb_eq in T.
Qed.

Lemma format_time_for_speech_of_strftime_witness :
  format_time_for_speech
    (strftime_I_M_p {| on_day := 7; at_hour := 14; at_minute := 5;
                       at_second := 30 |})
  = "2 05".
Proof.
  apply (format_time_for_speech_of_strftime
           {| on_day := 7; at_hour := 14; at_minute := 5; at_second := 30 |});
    simpl; lia.
Defined.

(** X23. The duration of an event is told without its whole days and
    without its seconds: when the end lies [days] days, [hours] hours,
    [minutes] minutes and [seconds] seconds behind the start, the text is
    "<hours>h <minutes>m", or "<minutes>m" when [hours] is zero. *)
Theorem duration_text_of_difference
  (start finish : datetime) (days hours minutes seconds : N) :
  (seconds_since finish
   = seconds_since start + days * 86400 + hours * 3600 + minutes * 60
     + seconds)%N ->
  (hours < 24)%N -> (minutes < 60)%N -> (seconds < 60)%N ->
  duration_text (timedelta_seconds start finish)
  = if (0 <? hours)%N
    then str (N.to_nat hours) ++ "h " ++ str (N.to_nat minutes) ++ "m"
    else str (N.to_nat minutes) ++ "m".
Proof.
  intros E Hh Hm Hs.
  assert (Et : timedelta_seconds start finish
               = (hours * 3600 + minutes * 60 + seconds)%N).
  { unfold timedelta_seconds. cbv zeta.
    replace (seconds_since start <=? seconds_since finish)%N with true
      by (symmetry; apply N.leb_le; lia).
    symmetry. apply (N.mod_unique _ _ days); lia. }
  unfold duration_text. rewrite Et. cbv zeta.
  replace ((hours * 3600 + minutes * 60 + seconds) / 3600)%N with hours
    by (apply (N.div_unique _ _ _ (minutes * 60 + seconds)%N); lia).
  replace ((hours * 3600 + minutes * 60 + seconds) mod 3600)%N
    with (minutes * 60 + seconds)%N
    by (apply (N.mod_unique _ _ hours); lia).
  replace ((minutes * 60 + seconds) / 60)%N with minutes
    by (apply (N.div_unique _ _ _ seconds); lia).
  reflexivity.
Qed.

Lemma duration_text_of_difference_witness :
  duration_text
    (timedelta_seconds
       {| on_day := 7; at_hour := 9; at_minute := 0; at_second := 0 |}
       {| on_day := 9; at_hour := 10; at_minute := 30; at_second := 15 |})
  = "1h 30m".
Proof.
  apply (duration_text_of_difference
           {| on_day := 7; at_hour := 9; at_minute := 0; at_second := 0 |}
           {| on_day := 9; at_hour := 10; at_minute := 30; at_second := 15 |}
           2 1 30 15); reflexivity.
Defined.

(** ** The meeting type and the organizer of an Exchange account *)

Section Medium.

Lemma lower_char_fixed (c : ascii) : lower_char (lower_char c) = lower_char c.
Proof. each_char c. Qed.

Lemma lower_fixed (s : string) : lower (lower s) = lower s.
Proof.
  unfold lower. rewrite chars_text, map_map. f_equal.
  apply map_ext. intros c. apply lower_char_fixed.
Qed.

Lemma location_lower (s : string) :
  (if truthy s then lower s else "") = lower s.
Proof. now destruct s. Qed.


End Medium.

(** X24. The meeting type looks at the location without regard to letter
    case; a meeting is online exactly when its location holds "teams",
    "zoom", "webex" or "http", and in person otherwise; and the name of a
    provider goes before the link: "teams" gives Microsoft Teams whatever
    else the location holds, and a location with "zoom" or "webex" is never
    just an Online Meeting. *)
Theorem meeting_medium_words (location : string) :
  let l := lower location in
  meeting_medium (lower location) = meeting_medium location
  /\ (snd (meeting_medium location) = true
      <-> contains "teams" l = true \/ contains "zoom" l = true
          \/ contains "webex" l = true \/ contains "http" l = true)
  /\ (snd (meeting_medium location) = false
      <-> fst (meeting_medium location) = "In-person")
  /\ (contains "teams" l = true ->
      fst (meeting_medium location) = "Microsoft Teams")
  /\ (contains "zoom" l = true \/ contains "webex" l = true ->
      fst (meeting_medium location) <> "Online Meeting").
Proof.
  intros l. unfold meeting_medium.
  rewrite (location_lower (lower location)), (location_lower location),
    lower_fixed. fold l.
  split; [reflexivity|].
  destruct (contains "teams" l), (contains "zoom" l), (contains "webex" l),
    (contains "http" l); cbn [fst snd];
    repeat split; try tauto; try discriminate;
    try (intros [H|[H|[H|H]]]; discriminate H);
    try (intros [H|H]; discriminate H).
Qed.


